(** * The in-memory banking ledger of [banking-system.py]

    A shallow embedding of the two model classes of the program,
    [BankAccount] and [BankingSystem], and of the handlers of its window,
    [BankingApp], with the properties of the ledger that its
    specification states and further ones that the code shows.

    Conventions of the embedding.
    - An amount is a Python number: an [int] of any size or a [float],
      with the arithmetic, the comparisons and the [:.2f] format that
      Python gives to each, rounding and [OverflowError] included.
    - A method that mutates [self] and returns a value is a function from
      the object to the pair of its result and the new object; the
      result is the value returned or the exception raised.
    - What a method reads from its environment (the clock, the random
      bytes behind [uuid.uuid4()]) is an explicit argument.
    - [accounts] is a Python [dict] keyed by strings: a [gmap string _].
    - A character of a string is a code point below 256.
    - Of a widget the model keeps its text; a message box is a value that
      the handler returns. *)

From Stdlib Require Import ZArith NArith String Ascii List Lia DecimalString.
From stdpp Require Import gmap strings list fin_maps.

Local Open Scope Z_scope.

(** ** Python strings *)

Module PyStr.

(** The newline character of the ["\n"] escapes. *)
Definition nl : string := String (ascii_of_nat 10) EmptyString.

(** [s.startswith(p)]. *)
Fixpoint startswith (p s : string) : bool :=
  match p, s with
  | EmptyString, _ => true
  | String _ _, EmptyString => false
  | String a p', String b s' => Ascii.eqb a b && startswith p' s'
  end.

(** [sub in s]: [sub] occurs in [s] as a contiguous run of characters. *)
Fixpoint contains (sub s : string) : bool :=
  startswith sub s ||
  match s with
  | EmptyString => false
  | String _ s' => contains sub s'
  end.

(** The slice [s[:n]]: the first [n] characters, or all of [s] when it is
    shorter. *)
Fixpoint slice_to (n : nat) (s : string) : string :=
  match n, s with
  | O, _ => EmptyString
  | S _, EmptyString => EmptyString
  | S n', String a s' => String a (slice_to n' s')
  end.

(** The slice [s[n:]]. *)
Fixpoint slice_from (n : nat) (s : string) : string :=
  match n, s with
  | O, _ => s
  | S _, EmptyString => EmptyString
  | S n', String _ s' => slice_from n' s'
  end.

(** [str(n)] for an integer. *)
Definition str_int (n : Z) : string := NilZero.string_of_int (Z.to_int n).

(** [s.rjust(w, "0")] for a string of digits: zeros on the left up to
    width [w]. *)
Definition zfill (w : nat) (s : string) : string :=
  String.concat EmptyString (repeat "0"%string (w - String.length s)) +:+ s.

(** One lowercase hexadecimal digit, of the low four bits of [d]. *)
Definition hex_digit (d : Z) : ascii :=
  match Z.land d 15 with
  | 0 => "0" | 1 => "1" | 2 => "2" | 3 => "3"
  | 4 => "4" | 5 => "5" | 6 => "6" | 7 => "7"
  | 8 => "8" | 9 => "9" | 10 => "a" | 11 => "b"
  | 12 => "c" | 13 => "d" | 14 => "e" | _ => "f"
  end%char.

(** ['%0wx' % z] for [0 <= z < 16^w]: [w] hexadecimal digits, the most
    significant first. *)
Fixpoint hex_fixed (w : nat) (z : Z) : string :=
  match w with
  | O => EmptyString
  | S w' => String (hex_digit (Z.shiftr z (4 * Z.of_nat w'))) (hex_fixed w' z)
  end.

End PyStr.

(** ** Results of calls that can raise *)

(** What a call gives back: the value it returns, or the name of the
    exception it raises. *)
Inductive Result (A : Type) :=
| Returns (a : A)
| Raises (exception : string).

Arguments Returns {A} a.
Arguments Raises {A} exception.

Definition bind {A B : Type} (r : Result A) (k : A -> Result B) : Result B :=
  match r with
  | Returns a => k a
  | Raises e => Raises e
  end.

Notation "'let*' x ':=' r 'in' k" := (bind r (fun x => k))
  (at level 10, x name, r at level 100, k at level 200).

(** ** Python numbers *)

Module PyNum.

(** A finite [float] counts units of [2^-1074], the smallest positive
    double: every finite double is a whole number of them. *)
Definition unit_exponent : Z := 1074.
Definition scale : Z := 2 ^ unit_exponent.

(** The doubles reach up to, not including, [2^1024]. *)
Definition overflow_units : Z := 2 ^ (1024 + unit_exponent).

(** A [float]: not-a-number, an infinity, or a sign and a number of units
    (zero units under either sign are the two zeros). *)
Inductive Double :=
| NaN
| Inf (negative : bool)
| Fin (negative : bool) (units : N).

(** A number: an [int], of any size, or a [float]. *)
Inductive Num :=
| PyInt (z : Z)
| PyFloat (f : Double).

(** Rounding of a non-negative integer to 53 significant bits, to the
    nearest and on a tie to the even one. *)
Definition round53 (n : Z) : Z :=
  let s := Z.log2 n + 1 - 53 in
  if s <=? 0 then n
  else
    let q := Z.shiftr n s in
    let r := Z.land n (Z.ones s) in
    let half := Z.shiftl 1 (s - 1) in
    let q := if (half <? r) || ((r =? half) && Z.odd q) then q + 1 else q in
    Z.shiftl q s.

(** The signed number of units of a finite float. *)
Definition signed (negative : bool) (units : N) : Z :=
  if negative then - Z.of_N units else Z.of_N units.

(** The double nearest to [z] units; [zero_negative] is the sign of the
    result when [z] is zero. *)
Definition round_units (zero_negative : bool) (z : Z) : Double :=
  if z =? 0 then Fin zero_negative 0
  else
    let k := round53 (Z.abs z) in
    if overflow_units <=? k then Inf (z <? 0) else Fin (z <? 0) (Z.to_N k).

(** [x + y] on floats. *)
Definition fadd (x y : Double) : Double :=
  match x, y with
  | NaN, _ => NaN
  | _, NaN => NaN
  | Inf a, Inf b => if Bool.eqb a b then Inf a else NaN
  | Inf a, Fin _ _ => Inf a
  | Fin _ _, Inf b => Inf b
  | Fin a k, Fin b l => round_units (a && b) (signed a k + signed b l)
  end.

(** [-x] on floats. *)
Definition fneg (x : Double) : Double :=
  match x with
  | NaN => NaN
  | Inf a => Inf (negb a)
  | Fin a k => Fin (negb a) k
  end.

(** [x - y] on floats. *)
Definition fsub (x y : Double) : Double := fadd x (fneg y).

(** [float(z)] of an [int]: the nearest double, [OverflowError] when that
    is out of range. *)
Definition float_of_int (z : Z) : Result Double :=
  match round_units false (z * scale) with
  | Inf _ => Raises "OverflowError"
  | f => Returns f
  end.

(** [x + y]: exact on two ints; with a float, the int is converted. *)
Definition add (x y : Num) : Result Num :=
  match x, y with
  | PyInt a, PyInt b => Returns (PyInt (a + b))
  | PyInt a, PyFloat g =>
      let* f := float_of_int a in Returns (PyFloat (fadd f g))
  | PyFloat f, PyInt b =>
      let* g := float_of_int b in Returns (PyFloat (fadd f g))
  | PyFloat f, PyFloat g => Returns (PyFloat (fadd f g))
  end.

(** [x - y]. *)
Definition sub (x y : Num) : Result Num :=
  match x, y with
  | PyInt a, PyInt b => Returns (PyInt (a - b))
  | PyInt a, PyFloat g =>
      let* f := float_of_int a in Returns (PyFloat (fsub f g))
  | PyFloat f, PyInt b =>
      let* g := float_of_int b in Returns (PyFloat (fsub f g))
  | PyFloat f, PyFloat g => Returns (PyFloat (fsub f g))
  end.

(** [-x]. *)
Definition neg (x : Num) : Num :=
  match x with
  | PyInt a => PyInt (- a)
  | PyFloat f => PyFloat (fneg f)
  end.

(** The place of a number on the line, in units; [None] for not-a-number,
    which no comparison holds of. *)
Inductive Place :=
| Lowest
| At (units : Z)
| Highest.

Definition place (x : Num) : option Place :=
  match x with
  | PyInt z => Some (At (z * scale))
  | PyFloat NaN => None
  | PyFloat (Inf true) => Some Lowest
  | PyFloat (Inf false) => Some Highest
  | PyFloat (Fin a k) => Some (At (signed a k))
  end.

Definition place_ltb (p q : Place) : bool :=
  match p, q with
  | Lowest, Lowest => false
  | Lowest, _ => true
  | At _, Lowest => false
  | At u, At v => u <? v
  | At _, Highest => true
  | Highest, _ => false
  end.

(** [x < y]: ints and floats are compared by their exact values. *)
Definition lt (x y : Num) : bool :=
  match place x, place y with
  | Some p, Some q => place_ltb p q
  | _, _ => false
  end.

(** [x > y]. *)
Definition gt (x y : Num) : bool := lt y x.

(** [x <= y]. *)
Definition le (x y : Num) : bool :=
  match place x, place y with
  | Some p, Some q => negb (place_ltb q p)
  | _, _ => false
  end.

(** [x >= y]. *)
Definition ge (x y : Num) : bool := le y x.

(** The format [:.2f] of a float: the value rounded to two decimals, to
    the nearest and on a tie to the even one. *)
Definition format_float_2f (f : Double) : string :=
  match f with
  | NaN => "nan"
  | Inf a => if a then "-inf" else "inf"
  | Fin a k =>
      let scaled := 100 * Z.of_N k in
      let q := Z.shiftr scaled unit_exponent in
      let r := Z.land scaled (Z.ones unit_exponent) in
      let half := Z.shiftl 1 (unit_exponent - 1) in
      let q := if (half <? r) || ((r =? half) && Z.odd q) then q + 1 else q in
      (if a then "-" else "") +:+ PyStr.str_int (q / 100) +:+ "." +:+
      PyStr.zfill 2 (PyStr.str_int (q mod 100))
  end.

(** The format [:.2f] of a number: an int is converted to a float. *)
Definition format_2f (x : Num) : Result string :=
  match x with
  | PyInt z => let* f := float_of_int z in Returns (format_float_2f f)
  | PyFloat f => Returns (format_float_2f f)
  end.

End PyNum.

(** ** The environment: random UUIDs and the clock *)

Module Uuid.

(** A UUID is its 128-bit integer. *)
Definition UUID := Z.

(** [uuid.uuid4()], from the integer [r] read from [os.urandom(16)]:
    the variant bits are set to [10] and the version nibble to [4]. *)
Definition uuid4 (r : Z) : UUID :=
  let i := Z.land r (Z.ones 128) in
  let i := Z.land i (Z.lnot (Z.shiftl 0xc000 48)) in
  let i := Z.lor i (Z.shiftl 0x8000 48) in
  let i := Z.land i (Z.lnot (Z.shiftl 0xf000 64)) in
  Z.lor i (Z.shiftl 4 76).

(** [str(u)]: 32 hexadecimal digits in groups of 8-4-4-4-12. *)
Definition str (u : UUID) : string :=
  let x := PyStr.hex_fixed 32 u in
  PyStr.slice_to 8 x +:+ "-" +:+
  PyStr.slice_to 4 (PyStr.slice_from 8 x) +:+ "-" +:+
  PyStr.slice_to 4 (PyStr.slice_from 12 x) +:+ "-" +:+
  PyStr.slice_to 4 (PyStr.slice_from 16 x) +:+ "-" +:+
  PyStr.slice_from 20 x.

End Uuid.

(** [datetime.date]: a calendar day. *)
Record Date := mkDate { year : nat; month : nat; day : nat }.

(** [str(d)] of a date: [YYYY-MM-DD]. *)
Definition Date_str (d : Date) : string :=
  PyStr.zfill 4 (NilZero.string_of_uint (Nat.to_uint (year d))) +:+ "-" +:+
  PyStr.zfill 2 (NilZero.string_of_uint (Nat.to_uint (month d))) +:+ "-" +:+
  PyStr.zfill 2 (NilZero.string_of_uint (Nat.to_uint (day d))).

(** [datetime.datetime]: a day and a time of day. *)
Record DateTime := mkDateTime {
  on_date : Date;
  hour : nat;
  minute : nat;
  second : nat;
  microsecond : nat
}.

(** ** class BankAccount *)

(** A transaction record, the tuple [(kind, signed amount, timestamp)]. *)
Definition Transaction : Type := string * PyNum.Num * DateTime.

Record BankAccount := mkBankAccount {
  account_number : string;
  account_holder_name : string;
  balance : PyNum.Num;
  account_type : string;
  transactions : list Transaction;
  creation_date : Date
}.

(** [BankAccount.__init__]; [r] is the random integer behind
    [uuid.uuid4()] and [today] the value of [datetime.date.today()]. *)
Definition BankAccount_init (r : Z) (today : Date)
    (account_holder_name : string) (initial_balance : PyNum.Num)
    (account_type : string) : BankAccount :=
  {| account_number := PyStr.slice_to 8 (Uuid.str (Uuid.uuid4 r));
     account_holder_name := account_holder_name;
     balance := initial_balance;
     account_type := account_type;
     transactions := [];
     creation_date := today |}.

(** [BankAccount.deposit]; [now] is the value of
    [datetime.datetime.now()].  The sum is computed before anything is
    assigned; the message is formatted after the balance and the list
    have changed. *)
Definition deposit (self : BankAccount) (amount : PyNum.Num) (now : DateTime)
    : Result string * BankAccount :=
  match PyNum.add (balance self) amount with
  | Raises e => (Raises e, self)
  | Returns sum =>
      let self :=
        {| account_number := account_number self;
           account_holder_name := account_holder_name self;
           balance := sum;
           account_type := account_type self;
           transactions :=
             transactions self ++ [("Deposit"%string, amount, now)];
           creation_date := creation_date self |} in
      (let* a := PyNum.format_2f amount in
       let* b := PyNum.format_2f (balance self) in
       Returns ("Deposited $" +:+ a +:+ ". New balance: $" +:+ b),
       self)
  end.

(** The message of a refused withdrawal. *)
Definition insufficient_funds : string := "Insufficient funds.".

(** [BankAccount.withdraw]. *)
Definition withdraw (self : BankAccount) (amount : PyNum.Num) (now : DateTime)
    : Result string * BankAccount :=
  if PyNum.gt amount (balance self) then (Returns insufficient_funds, self)
  else
    match PyNum.sub (balance self) amount with
    | Raises e => (Raises e, self)
    | Returns difference =>
        let self :=
          {| account_number := account_number self;
             account_holder_name := account_holder_name self;
             balance := difference;
             account_type := account_type self;
             transactions :=
               transactions self ++
                 [("Withdraw"%string, PyNum.neg amount, now)];
             creation_date := creation_date self |} in
        (let* a := PyNum.format_2f amount in
         let* b := PyNum.format_2f (balance self) in
         Returns ("Withdrew $" +:+ a +:+ ". New balance: $" +:+ b),
         self)
    end.

(** [BankAccount.get_details]. *)
Definition get_details (self : BankAccount) : Result string :=
  let* b := PyNum.format_2f (balance self) in
  Returns
    ("Account: " +:+ account_number self +:+ PyStr.nl +:+
     "Holder: " +:+ account_holder_name self +:+ PyStr.nl +:+
     "Type: " +:+ account_type self +:+ PyStr.nl +:+
     "Balance: $" +:+ b +:+ PyStr.nl +:+
     "Created: " +:+ Date_str (creation_date self)).

(** ** class BankingSystem *)

Record BankingSystem := mkBankingSystem {
  accounts : gmap string BankAccount
}.

(** [BankingSystem.__init__]. *)
Definition BankingSystem_init : BankingSystem := {| accounts := ∅ |}.

(** [BankingSystem.create_account]: the assignment
    [self.accounts[acc.account_number] = acc] and the returned number. *)
Definition create_account (self : BankingSystem) (r : Z) (today : Date)
    (name : string) (balance : PyNum.Num) (account_type : string)
    : string * BankingSystem :=
  let acc := BankAccount_init r today name balance account_type in
  (account_number acc,
   {| accounts := <[account_number acc := acc]> (accounts self) |}).

(** [BankingSystem.get_account]: [dict.get], [None] for a missing key. *)
Definition get_account (self : BankingSystem) (acc_number : string)
    : option BankAccount :=
  accounts self !! acc_number.

(** [BankingSystem.delete_account]: [dict.pop] with the default [None]. *)
Definition delete_account (self : BankingSystem) (acc_number : string)
    : option BankAccount * BankingSystem :=
  match accounts self !! acc_number with
  | Some acc => (Some acc, {| accounts := delete acc_number (accounts self) |})
  | None => (None, self)
  end.

(** ** Sequences of calls *)

(** A call of a method of one account, with what it reads from the clock. *)
Inductive AccountCall :=
| CallDeposit (amount : PyNum.Num) (now : DateTime)
| CallWithdraw (amount : PyNum.Num) (now : DateTime).

Definition call (self : BankAccount) (c : AccountCall)
    : Result string * BankAccount :=
  match c with
  | CallDeposit amount now => deposit self amount now
  | CallWithdraw amount now => withdraw self amount now
  end.

(** The calls of [cs] made in turn on one account, each by a caller that
    goes on after an exception: the results of the calls, and the account
    at the end. *)
Fixpoint calls (self : BankAccount) (cs : list AccountCall)
    : list (Result string) * BankAccount :=
  match cs with
  | [] => ([], self)
  | c :: cs' =>
      let '(res, self) := call self c in
      let '(ress, self) := calls self cs' in
      (res :: ress, self)
  end.

(** A call succeeded when it returned a message that is not the
    refusal. *)
Definition succeeded (res : Result string) : bool :=
  match res with
  | Returns msg => negb (String.eqb msg insufficient_funds)
  | Raises _ => false
  end.

(** A call returned, with the confirmation or with the refusal. *)
Definition returned (res : Result string) : bool :=
  match res with
  | Returns _ => true
  | Raises _ => false
  end.

(** The record a successful call leaves in the history. *)
Definition record_of (c : AccountCall) : Transaction :=
  match c with
  | CallDeposit amount now => ("Deposit"%string, amount, now)
  | CallWithdraw amount now => ("Withdraw"%string, PyNum.neg amount, now)
  end.

(** The calls that succeeded, in the order they were made, given the
    result of each one. *)
Fixpoint successful (cs : list AccountCall) (ress : list (Result string))
    : list AccountCall :=
  match cs, ress with
  | c :: cs', res :: ress' =>
      if succeeded res then c :: successful cs' ress'
      else successful cs' ress'
  | _, _ => []
  end.

(** The deposited amounts of a sequence of calls. *)
Definition deposits (amounts : list (PyNum.Num * DateTime))
    : list AccountCall :=
  map (fun '(amount, now) => CallDeposit amount now) amounts.

(** The sum of a list of integers. *)
Definition total (amounts : list Z) : Z := fold_right Z.add 0 amounts.

(** The balance after each call of [cs], in order. *)
Fixpoint balances (self : BankAccount) (cs : list AccountCall)
    : list PyNum.Num :=
  match cs with
  | [] => []
  | c :: cs' =>
      let self := snd (call self c) in balance self :: balances self cs'
  end.

(** A call of a method of the ledger that creates or deletes an account. *)
Inductive LedgerCall :=
| CallCreate (r : Z) (today : Date) (name : string) (balance : PyNum.Num)
    (account_type : string)
| CallDelete (acc_number : string).

(** The calls of [cs] made in turn on the ledger: the account numbers that
    [create_account] returned, in order, and the ledger at the end. *)
Fixpoint ledger_calls (self : BankingSystem) (cs : list LedgerCall)
    : list string * BankingSystem :=
  match cs with
  | [] => ([], self)
  | CallCreate r today name balance account_type :: cs' =>
      let '(id, self) := create_account self r today name balance account_type in
      let '(ids, self) := ledger_calls self cs' in
      (id :: ids, self)
  | CallDelete acc_number :: cs' =>
      ledger_calls (snd (delete_account self acc_number)) cs'
  end.

(** The random integers that the [create_account] calls of [cs] draw. *)
Fixpoint draws (cs : list LedgerCall) : list Z :=
  match cs with
  | [] => []
  | CallCreate r _ _ _ _ :: cs' => r :: draws cs'
  | CallDelete _ :: cs' => draws cs'
  end.

(** The account number made from the random integer [r]. *)
Definition number_of_draw (r : Z) : string :=
  PyStr.slice_to 8 (Uuid.str (Uuid.uuid4 r)).

(** ** The transaction history *)

(** A number in decimal, with zeros on the left up to width [w]: the
    conversions [%02d], [%04d] and [%06d]. *)
Definition zero_padded (w : nat) (n : nat) : string :=
  PyStr.zfill w (NilZero.string_of_uint (Nat.to_uint n)).

(** [str(t)] of a datetime without time zone: [YYYY-MM-DD HH:MM:SS], and
    [.ffffff] after it when the microsecond is not zero. *)
Definition DateTime_str (t : DateTime) : string :=
  Date_str (on_date t) +:+ " " +:+
  zero_padded 2 (hour t) +:+ ":" +:+
  zero_padded 2 (minute t) +:+ ":" +:+
  zero_padded 2 (second t) +:+
  (if Nat.eqb (microsecond t) 0 then EmptyString
   else "." +:+ zero_padded 6 (microsecond t)).

(** One line of the history: [f"{t[2]} - {t[0]}: ${t[1]:.2f}"]. *)
Definition history_line (t : Transaction) : Result string :=
  let '(kind, amount, time) := t in
  let* a := PyNum.format_2f amount in
  Returns (DateTime_str time +:+ " - " +:+ kind +:+ ": $" +:+ a).

(** The list comprehension [[f(t) for t in ts]]: the values in order, or
    the first exception. *)
Fixpoint comprehension {A B : Type} (f : A -> Result B) (ts : list A)
    : Result (list B) :=
  match ts with
  | [] => Returns []
  | t :: ts' =>
      let* x := f t in
      let* xs := comprehension f ts' in
      Returns (x :: xs)
  end.

(** [BankAccount.transaction_history]. *)
Definition transaction_history (self : BankAccount) : Result string :=
  match transactions self with
  | [] => Returns "No transactions yet."%string
  | _ :: _ =>
      let* lines := comprehension history_line (transactions self) in
      Returns (String.concat PyStr.nl lines)
  end.

(** The history text after one more record [t]. *)
Definition extended_history (self : BankAccount) (t : Transaction)
    : Result string :=
  match transactions self with
  | [] => history_line t
  | _ :: _ =>
      let* old := transaction_history self in
      let* line := history_line t in
      Returns (old +:+ PyStr.nl +:+ line)
  end.

(** ** Characters *)

(** Whether a character is one of [0] to [9]. *)
Definition is_decimal_digit (c : ascii) : bool :=
  let n := nat_of_ascii c in (48 <=? n)%nat && (n <=? 57)%nat.

(** Whether a character is a lowercase hexadecimal digit. *)
Definition is_hex_digit (c : ascii) : bool :=
  let n := nat_of_ascii c in
  ((48 <=? n)%nat && (n <=? 57)%nat) || ((97 <=? n)%nat && (n <=? 102)%nat).

(** Whether every character of [s] satisfies [p]. *)
Fixpoint all_chars (p : ascii -> bool) (s : string) : bool :=
  match s with
  | EmptyString => true
  | String c s' => p c && all_chars p s'
  end.

(** The value of a lowercase hexadecimal digit, [int(c, 16)]; [0] for any
    other character. *)
Definition hex_value (c : ascii) : Z :=
  let n := Z.of_nat (nat_of_ascii c) in
  if (48 <=? n) && (n <=? 57) then n - 48
  else if (97 <=? n) && (n <=? 102) then n - 87
  else 0.

(** The 32 leading bits of the 128-bit integer drawn for a UUID. *)
Definition leading32 (r : Z) : Z := Z.shiftr (Z.land r (Z.ones 128)) 96.

(** ** The ledger seen from its keys *)

(** Every account of the ledger is stored under its own number. *)
Definition keys_consistent (self : BankingSystem) : Prop :=
  map_Forall (fun k acc => account_number acc = k) (accounts self).

(** The number of [create_account] calls in a sequence of ledger calls. *)
Definition creations (cs : list LedgerCall) : nat := length (draws cs).

(** ** class BankingApp: the handlers of the window *)

(** [c.isdigit()] for a character, which is a code point below 256: the
    digits zero to nine and the superscripts two, three and one. *)
Definition isdigit_char (c : ascii) : bool :=
  let n := nat_of_ascii c in
  ((48 <=? n)%nat && (n <=? 57)%nat)
  || (n =? 178)%nat || (n =? 179)%nat || (n =? 185)%nat.

(** [s.isdigit()]: [s] has a character and all its characters are digits. *)
Definition isdigit (s : string) : bool :=
  match s with
  | EmptyString => false
  | String _ _ => all_chars isdigit_char s
  end.

(** The number that a string of the digits zero to nine denotes, after the
    digits already read as [acc]. *)
Fixpoint digits_value (acc : Z) (s : string) : Z :=
  match s with
  | EmptyString => acc
  | String c s' =>
      digits_value (10 * acc + (Z.of_nat (nat_of_ascii c) - 48)) s'
  end.

(** [float(s)] for a string [s] that passed [s.isdigit()]: the double
    nearest to the number its digits denote, infinity when that is out of
    range, and [ValueError] when one of the digits is a superscript. *)
Definition float_of_digits (s : string) : Result PyNum.Double :=
  match s with
  | EmptyString => Raises "ValueError"
  | String _ _ =>
      if all_chars is_decimal_digit s
      then Returns (PyNum.round_units false (digits_value 0 s * PyNum.scale))
      else Raises "ValueError"
  end.

Module App.

(** A message box. *)
Inductive Dialog :=
| Warning (title text : string)
| Information (title text : string).

(** What the user sees of a handler besides the widgets: nothing, a
    message box, or an exception that the handler does not catch. *)
Inductive Shown :=
| Nothing
| Shows (d : Dialog)
| Uncaught (exception : string).

(** The window: the ledger and the text of each widget that a handler
    reads or writes ([account_type] is the current text of the combo
    box). *)
Record BankingApp := mkBankingApp {
  bank : BankingSystem;
  name_input : string;
  balance_input : string;
  account_type : string;
  account_number_input : string;
  account_details_display : string;
  account_number_txn_input : string;
  amount_input : string;
  txn_display : string
}.

(** [BankingApp.__init__] with [init_ui]: an empty ledger, empty fields,
    and the combo box on the first of its items. *)
Definition BankingApp_init : BankingApp :=
  {| bank := BankingSystem_init;
     name_input := "";
     balance_input := "";
     account_type := "Savings";
     account_number_input := "";
     account_details_display := "";
     account_number_txn_input := "";
     amount_input := "";
     txn_display := "" |}.

(** [BankingApp.create_account]; [r] and [today] are what the constructor
    of the account reads from its environment. *)
Definition create_account (self : BankingApp) (r : Z) (today : Date)
    : Shown * BankingApp :=
  let name := name_input self in
  let balance := balance_input self in
  let acc_type := account_type self in
  if String.eqb name "" || negb (isdigit balance) then
    (Shows (Warning "Input Error" "Invalid input!"), self)
  else
    match float_of_digits balance with
    | Raises e => (Uncaught e, self)
    | Returns amount =>
        let '(acc_number, bank') :=
          create_account (bank self) r today name (PyNum.PyFloat amount)
            acc_type in
        (Shows (Information "Success"
                  ("Account Created! Account Number: " +:+ acc_number)),
         {| bank := bank';
            name_input := "";
            balance_input := "";
            account_type := account_type self;
            account_number_input := account_number_input self;
            account_details_display := account_details_display self;
            account_number_txn_input := account_number_txn_input self;
            amount_input := amount_input self;
            txn_display := txn_display self |})
    end.

(** [BankingApp.show_account_details]. *)
Definition show_account_details (self : BankingApp) : Shown * BankingApp :=
  let acc_number := account_number_input self in
  match get_account (bank self) acc_number with
  | Some account =>
      match get_details account with
      | Raises e => (Uncaught e, self)
      | Returns details =>
          (Nothing,
           {| bank := bank self;
              name_input := name_input self;
              balance_input := balance_input self;
              account_type := account_type self;
              account_number_input := account_number_input self;
              account_details_display := details;
              account_number_txn_input := account_number_txn_input self;
              amount_input := amount_input self;
              txn_display := txn_display self |})
      end
  | None => (Shows (Warning "Not Found" "Account not found!"), self)
  end.

(** [BankingApp.process_transaction].  The account is the object stored
    under [acc_number], so what [deposit] or [withdraw] does to it shows
    in that entry of the dictionary, also when the call then raises. *)
Definition process_transaction (self : BankingApp) (txn_type : string)
    (now : DateTime) : Shown * BankingApp :=
  let acc_number := account_number_txn_input self in
  let amount_text := amount_input self in
  if negb (isdigit amount_text) then
    (Shows (Warning "Input Error" "Invalid amount!"), self)
  else
    match get_account (bank self) acc_number with
    | Some account =>
        match float_of_digits amount_text with
        | Raises e => (Uncaught e, self)
        | Returns amount =>
            let '(res, account) :=
              if String.eqb txn_type "Deposit"
              then deposit account (PyNum.PyFloat amount) now
              else withdraw account (PyNum.PyFloat amount) now in
            let bank' :=
              {| accounts :=
                   <[acc_number := account]> (accounts (bank self)) |} in
            match res with
            | Raises e =>
                (Uncaught e,
                 {| bank := bank';
                    name_input := name_input self;
                    balance_input := balance_input self;
                    account_type := account_type self;
                    account_number_input := account_number_input self;
                    account_details_display := account_details_display self;
                    account_number_txn_input := account_number_txn_input self;
                    amount_input := amount_input self;
                    txn_display := txn_display self |})
            | Returns message =>
                (Nothing,
                 {| bank := bank';
                    name_input := name_input self;
                    balance_input := balance_input self;
                    account_type := account_type self;
                    account_number_input := account_number_input self;
                    account_details_display := account_details_display self;
                    account_number_txn_input := account_number_txn_input self;
                    amount_input := amount_input self;
                    txn_display := message |})
            end
        end
    | None => (Shows (Warning "Not Found" "Account not found!"), self)
    end.

(** [BankingApp.deposit]. *)
Definition deposit (self : BankingApp) (now : DateTime)
    : Shown * BankingApp :=
  process_transaction self "Deposit" now.

(** [BankingApp.withdraw]. *)
Definition withdraw (self : BankingApp) (now : DateTime)
    : Shown * BankingApp :=
  process_transaction self "Withdraw" now.

(** What the user does with the window: type a text into a field, choose
    one of the two items of the combo box, or click a button.  The buttons
    are connected to the handlers as [setup_create_account_tab],
    [setup_manage_account_tab] and [setup_transaction_tab] connect them. *)
Inductive Event :=
| TypeName (text : string)
| TypeBalance (text : string)
| ChooseType (checking : bool)
| TypeAccountNumber (text : string)
| TypeTxnAccountNumber (text : string)
| TypeAmount (text : string)
| ClickCreate (r : Z) (today : Date)
| ClickDetails
| ClickDeposit (now : DateTime)
| ClickWithdraw (now : DateTime).

(** The window after one event, and what the event showed. *)
Definition handle (self : BankingApp) (e : Event) : Shown * BankingApp :=
  match e with
  | TypeName text =>
      (Nothing,
       {| bank := bank self;
          name_input := text;
          balance_input := balance_input self;
          account_type := account_type self;
          account_number_input := account_number_input self;
          account_details_display := account_details_display self;
          account_number_txn_input := account_number_txn_input self;
          amount_input := amount_input self;
          txn_display := txn_display self |})
  | TypeBalance text =>
      (Nothing,
       {| bank := bank self;
          name_input := name_input self;
          balance_input := text;
          account_type := account_type self;
          account_number_input := account_number_input self;
          account_details_display := account_details_display self;
          account_number_txn_input := account_number_txn_input self;
          amount_input := amount_input self;
          txn_display := txn_display self |})
  | ChooseType checking =>
      (Nothing,
       {| bank := bank self;
          name_input := name_input self;
          balance_input := balance_input self;
          account_type := if checking then "Checking" else "Savings";
          account_number_input := account_number_input self;
          account_details_display := account_details_display self;
          account_number_txn_input := account_number_txn_input self;
          amount_input := amount_input self;
          txn_display := txn_display self |})
  | TypeAccountNumber text =>
      (Nothing,
       {| bank := bank self;
          name_input := name_input self;
          balance_input := balance_input self;
          account_type := account_type self;
          account_number_input := text;
          account_details_display := account_details_display self;
          account_number_txn_input := account_number_txn_input self;
          amount_input := amount_input self;
          txn_display := txn_display self |})
  | TypeTxnAccountNumber text =>
      (Nothing,
       {| bank := bank self;
          name_input := name_input self;
          balance_input := balance_input self;
          account_type := account_type self;
          account_number_input := account_number_input self;
          account_details_display := account_details_display self;
          account_number_txn_input := text;
          amount_input := amount_input self;
          txn_display := txn_display self |})
  | TypeAmount text =>
      (Nothing,
       {| bank := bank self;
          name_input := name_input self;
          balance_input := balance_input self;
          account_type := account_type self;
          account_number_input := account_number_input self;
          account_details_display := account_details_display self;
          account_number_txn_input := account_number_txn_input self;
          amount_input := text;
          txn_display := txn_display self |})
  | ClickCreate r today => create_account self r today
  | ClickDetails => show_account_details self
  | ClickDeposit now => deposit self now
  | ClickWithdraw now => withdraw self now
  end.

(** The window after a sequence of events.  An exception that a handler
    raises ends that handler only; the window stays as the handler left
    it. *)
Fixpoint run (self : BankingApp) (es : list Event) : BankingApp :=
  match es with
  | [] => self
  | e :: es' => run (snd (handle self e)) es'
  end.

End App.

(** ** Numbers that are integers *)

(** Every integer up to this magnitude is a double. *)
Definition exact_bound : Z := 2 ^ 53.

(** Whether an integer is within that magnitude. *)
Definition within (z : Z) : bool := Z.abs z <=? exact_bound.

(** Whether the number [x] is the integer [z], as an int or as a float;
    zero is both zeros of the floats. *)
Definition denotes (x : PyNum.Num) (z : Z) : bool :=
  match x with
  | PyNum.PyInt a => a =? z
  | PyNum.PyFloat (PyNum.Fin a k) =>
      (Z.of_N k =? Z.abs z * PyNum.scale) &&
      ((z =? 0) || Bool.eqb a (z <? 0))
  | PyNum.PyFloat _ => false
  end.

(** Whether the numbers [xs] are, one by one, the integers [zs]. *)
Fixpoint denote_all (xs : list PyNum.Num) (zs : list Z) : bool :=
  match xs, zs with
  | [], [] => true
  | x :: xs', z :: zs' => denotes x z && denote_all xs' zs'
  | _, _ => false
  end.

(** The sums of [b] and the first one, two, ... of the integers [zs]. *)
Fixpoint running (b : Z) (zs : list Z) : list Z :=
  match zs with
  | [] => []
  | z :: zs' => (b + z) :: running (b + z) zs'
  end.

(** Whether the integers [zs], and the sums of [b] and the first one,
    two, ... of them, are all within the magnitude. *)
Fixpoint sums_within (b : Z) (zs : list Z) : bool :=
  match zs with
  | [] => true
  | z :: zs' => within z && within (b + z) && sums_within (b + z) zs'
  end.

(** Whether a number is a float. *)
Definition is_float (x : PyNum.Num) : bool :=
  match x with
  | PyNum.PyFloat _ => true
  | PyNum.PyInt _ => false
  end.

(** Whether a float number is a double: it has at most 53 significant
    bits and is in range.  An int always is a number. *)
Definition is_double (x : PyNum.Num) : bool :=
  match x with
  | PyNum.PyFloat (PyNum.Fin _ k) =>
      (PyNum.round53 (Z.of_N k) =? Z.of_N k) &&
      (Z.of_N k <? PyNum.overflow_units)
  | _ => true
  end.

(** [x >= 0]. *)
Definition nonneg (x : PyNum.Num) : bool := PyNum.ge x (PyNum.PyInt 0).

(** Whether [x] is neither not-a-number nor plus infinity. *)
Definition subtractable (x : PyNum.Num) : bool :=
  match x with
  | PyNum.PyFloat PyNum.NaN => false
  | PyNum.PyFloat (PyNum.Inf false) => false
  | _ => true
  end.

(** Whether every deposit of [cs] is of an amount that is not negative,
    and every withdrawal of an amount that is neither not-a-number nor
    plus infinity. *)
Definition calls_admitted (cs : list AccountCall) : bool :=
  forallb (fun c => match c with
                    | CallDeposit amount _ => is_double amount && nonneg amount
                    | CallWithdraw amount _ =>
                        is_double amount && subtractable amount
                    end) cs.

(** Whether every amount of [cs] is an int. *)
Definition int_calls (cs : list AccountCall) : bool :=
  forallb (fun c => match c with
                    | CallDeposit (PyNum.PyInt _) _ => true
                    | CallWithdraw (PyNum.PyInt _) _ => true
                    | _ => false
                    end) cs.

(** Whether every amount of [cs] is a float. *)
Definition float_calls (cs : list AccountCall) : bool :=
  forallb (fun c => match c with
                    | CallDeposit (PyNum.PyFloat _) _ => true
                    | CallWithdraw (PyNum.PyFloat _) _ => true
                    | _ => false
                    end) cs.

(** The integer that an int is; zero for a float. *)
Definition int_value (x : PyNum.Num) : Z :=
  match x with
  | PyNum.PyInt z => z
  | PyNum.PyFloat _ => 0
  end.

(** The sum of the signed amounts that a history of int amounts stores. *)
Definition recorded_total (ts : list Transaction) : Z :=
  total (map (fun t : Transaction => int_value (snd (fst t))) ts).

(** ** What the window keeps *)

(** A record that a deposit or a withdrawal of an amount that is not
    negative leaves. *)
Definition transaction_ok (t : Transaction) : Prop :=
  let '(kind, amount, _) := t in
  (kind = "Deposit"%string /\ PyNum.ge amount (PyNum.PyInt 0) = true) \/
  (kind = "Withdraw"%string /\ PyNum.le amount (PyNum.PyInt 0) = true).

(** What holds of an account stored under the number [k] in a ledger that
    only the window has worked on. *)
Definition account_ok (k : string) (acc : BankAccount) : Prop :=
  account_number acc = k /\
  (exists f, balance acc = PyNum.PyFloat f) /\
  PyNum.lt (balance acc) (PyNum.PyInt 0) = false /\
  account_holder_name acc <> ""%string /\
  (account_type acc = "Savings"%string \/
   account_type acc = "Checking"%string) /\
  Forall transaction_ok (transactions acc).

(** What holds of a window that only its user has worked on. *)
Definition window_ok (self : App.BankingApp) : Prop :=
  (App.account_type self = "Savings"%string \/
   App.account_type self = "Checking"%string) /\
  map_Forall account_ok (accounts (App.bank self)).

(** ** Sample data *)

Definition day1 : Date := mkDate 2024 3 5.
Definition time1 : DateTime := mkDateTime day1 9 30 0 0.

(** Three values of the random integer; the first two agree on their
    leading 32 bits. *)
Definition draw1 : Z := 0x1b9d6bcdbbfd4b2d9b5dab8dfbbd4bed.
Definition draw2 : Z := 0x1b9d6bcd0c7e4f118a213f5a9c0e7d42.
Definition draw3 : Z := 0x6ec0bd7f11c043da975e2a8ad9ebae0b.

(** The float of a whole number of moderate size, as a literal such as
    [100.0] gives it. *)
Definition whole (z : Z) : PyNum.Num :=
  PyNum.PyFloat (PyNum.round_units false (z * PyNum.scale)).

Definition alice : BankAccount :=
  BankAccount_init draw1 day1 "Alice" (PyNum.PyInt 100) "Savings".

Definition bank : BankingSystem :=
  snd (create_account BankingSystem_init draw1 day1 "Alice"
         (PyNum.PyInt 100) "Savings").

(** The account of Alice as the window creates it, with a float
    balance. *)
Definition alice_float : BankAccount :=
  BankAccount_init draw1 day1 "Alice" (whole 100) "Savings".

(** An account with the float balance [9007199254740994.0]. *)
Definition rich : BankAccount :=
  BankAccount_init draw3 day1 "Bob" (whole 9007199254740994) "Checking".

(** An account with the float balance [2.0 ** 53]. *)
Definition richer : BankAccount :=
  BankAccount_init draw3 day1 "Bob" (whole (2 ^ 53)) "Checking".

(** A balance text with a superscript two after the digit one. *)
Definition superscript_text : string :=
  String "1" (String (ascii_of_nat 178) EmptyString).

(** The window after the user has created the account of Alice and typed
    a transaction of 250 on it. *)
Definition window_alice : App.BankingApp :=
  App.run App.BankingApp_init
    [App.TypeName "Alice"; App.TypeBalance "100";
     App.ClickCreate draw1 day1;
     App.TypeTxnAccountNumber "1b9d6bcd"; App.TypeAmount "250"].

(** * Properties *)

(** ** Strings *)

Section StringFacts.

Import PyStr.

Lemma startswith_app (p s : string) : startswith p (p +:+ s) = true.
Proof.
  induction p as [|a p IH]; simpl; [reflexivity|].
  now rewrite Ascii.eqb_refl, IH.
Qed.

Lemma startswith_spec (p s : string) :
  startswith p s = true <-> exists rest, s = p +:+ rest.
Proof.
  split.
  - revert s. induction p as [|a p IH]; intros s H.
    + now exists s.
    + destruct s as [|b s]; simpl in H; [discriminate|].
      apply andb_true_iff in H. destruct H as [Hab Hps].
      apply Ascii.eqb_eq in Hab. subst b.
      destruct (IH s Hps) as [rest ->]. now exists rest.
  - intros [rest ->]. apply startswith_app.
Qed.

Lemma contains_startswith (sub s : string) :
  startswith sub s = true -> contains sub s = true.
Proof. intros H. destruct s; simpl in *; now rewrite H. Qed.

Lemma contains_prefix (sub rest : string) :
  contains sub (sub +:+ rest) = true.
Proof. apply contains_startswith, startswith_app. Qed.

Lemma contains_refl (s : string) : contains s s = true.
Proof.
  apply contains_startswith, startswith_spec. exists EmptyString.
  induction s as [|a s IH]; [reflexivity|].
  change (String a s = String a (s +:+ EmptyString)). now rewrite <- IH.
Qed.

Lemma contains_app_l (a sub s : string) :
  contains sub s = true -> contains sub (a +:+ s) = true.
Proof.
  intros H. induction a as [|c a IH]; simpl; [exact H|].
  rewrite IH. apply orb_true_r.
Qed.

(** [contains] is the occurrence of [sub] somewhere inside [s]. *)
Lemma contains_spec (sub s : string) :
  contains sub s = true <-> exists a b, s = a +:+ sub +:+ b.
Proof.
  split.
  - induction s as [|c s IH]; simpl; intros H.
    + rewrite orb_false_r in H. apply startswith_spec in H.
      destruct H as [rest ->]. now exists EmptyString, rest.
    + apply orb_true_iff in H. destruct H as [H|H].
      * apply startswith_spec in H. destruct H as [rest ->].
        now exists EmptyString, rest.
      * destruct (IH H) as (a & b & ->). now exists (String c a), b.
  - intros (a & b & ->). apply contains_app_l, contains_prefix.
Qed.

End StringFacts.

(** Finds [sub] in a concatenation of which it is one of the pieces. *)
Ltac find_piece :=
  first [ apply contains_refl
        | apply contains_prefix
        | apply contains_app_l; find_piece ].

(** ** Rounding *)

Lemma scale_pos : 0 < PyNum.scale.
Proof. unfold PyNum.scale. apply Z.pow_pos_nonneg; unfold PyNum.unit_exponent; lia. Qed.

(** The parts of a number that [round53] has to round. *)
Lemma round53_parts (n : Z) :
  0 < Z.log2 n + 1 - 53 ->
  let s := Z.log2 n + 1 - 53 in
  let q := n / 2 ^ s in
  let r := n mod 2 ^ s in
  n = q * 2 ^ s + r /\ 0 <= r < 2 ^ s /\
  2 ^ 52 <= q < 2 ^ 53 /\
  (PyNum.round53 n = q * 2 ^ s \/ PyNum.round53 n = (q + 1) * 2 ^ s) /\
  (r = 0 -> PyNum.round53 n = q * 2 ^ s).
Proof.
  intros Hs s q r.
  assert (Hn : 0 < n).
  { destruct (Z.ltb_spec 0 n) as [H|H]; [exact H|].
    rewrite Z.log2_nonpos in Hs by exact H. lia. }
  assert (Hpow : 0 < 2 ^ s) by (apply Z.pow_pos_nonneg; lia).
  pose proof (Z.log2_spec n Hn) as [Hlo Hhi].
  assert (Hdm : n = q * 2 ^ s + r).
  { unfold q, r. rewrite Z.mul_comm. apply Z.div_mod. lia. }
  assert (Hr : 0 <= r < 2 ^ s) by (apply Z.mod_pos_bound; exact Hpow).
  assert (Hsplit1 : 2 ^ Z.log2 n = 2 ^ 52 * 2 ^ s).
  { rewrite <- Z.pow_add_r by lia. f_equal. unfold s. lia. }
  assert (Hsplit2 : 2 ^ Z.succ (Z.log2 n) = 2 ^ 53 * 2 ^ s).
  { rewrite <- Z.pow_add_r by lia. f_equal. unfold s. lia. }
  assert (Hq : 2 ^ 52 <= q < 2 ^ 53).
  { split.
    - unfold q. apply Z.div_le_lower_bound; [exact Hpow|]. lia.
    - unfold q. apply Z.div_lt_upper_bound; [exact Hpow|]. lia. }
  repeat split; try tauto; try lia.
  - unfold PyNum.round53. fold s.
    destruct (Z.leb_spec s 0) as [H|_]; [lia|].
    rewrite Z.shiftr_div_pow2, Z.land_ones, !Z.shiftl_mul_pow2 by lia.
    fold q r.
    destruct ((1 * 2 ^ (s - 1) <? r) || ((r =? 1 * 2 ^ (s - 1)) && Z.odd q));
      [right | left]; reflexivity.
  - intros Hr0. unfold PyNum.round53. fold s.
    destruct (Z.leb_spec s 0) as [H|_]; [lia|].
    rewrite Z.shiftr_div_pow2, Z.land_ones, !Z.shiftl_mul_pow2 by lia.
    fold q r. rewrite Hr0.
    assert (0 < 2 ^ (s - 1)) by (apply Z.pow_pos_nonneg; lia).
    destruct (Z.ltb_spec (1 * 2 ^ (s - 1)) 0) as [H1|H1]; [lia|].
    destruct (Z.eqb_spec 0 (1 * 2 ^ (s - 1))) as [H2|H2]; [lia|].
    reflexivity.
Qed.

(** A number that a power of two scales from at most 53 bits is its own
    rounding. *)
Lemma round53_exact (m e : Z) :
  0 <= m <= 2 ^ 53 -> 0 <= e -> PyNum.round53 (m * 2 ^ e) = m * 2 ^ e.
Proof.
  intros Hm He.
  destruct (Z.eqb_spec m 0) as [->|Hm0']; [reflexivity|].
  assert (Hm0 : 0 < m) by lia. clear Hm0'.
  set (n := m * 2 ^ e).
  destruct (Z.leb_spec (Z.log2 n + 1 - 53) 0) as [Hs|Hs].
  - unfold PyNum.round53. fold n.
    destruct (Z.leb_spec (Z.log2 n + 1 - 53) 0); [reflexivity | lia].
  - destruct (round53_parts n Hs) as (Hdm & Hr & Hq & _ & Hzero).
    cbv zeta in *. set (s := Z.log2 n + 1 - 53) in *.
    assert (Hlog : Z.log2 n = Z.log2 m + e).
    { unfold n. rewrite Z.log2_mul_pow2 by lia. lia. }
    assert (Hdiv : n mod 2 ^ s = 0).
    { destruct (Z.leb_spec s e) as [Hse|Hse].
      - unfold n. replace e with ((e - s) + s) by lia.
        rewrite Z.pow_add_r by lia. rewrite Z.mul_assoc.
        apply Z.mod_mul. apply Z.pow_nonzero; lia.
      - assert (Hm53 : Z.log2 m = 53).
        { assert (Z.log2 m <= 53).
          { rewrite <- (Z.log2_pow2 53) by lia. apply Z.log2_le_mono. lia. }
          lia. }
        assert (m = 2 ^ 53).
        { pose proof (Z.log2_spec m Hm0) as [H1 _]. rewrite Hm53 in H1. lia. }
        subst m. unfold n. rewrite <- Z.pow_add_r by lia.
        replace (53 + e) with ((53 + e - s) + s) by lia.
        rewrite Z.pow_add_r by lia.
        apply Z.mod_mul. apply Z.pow_nonzero; lia. }
    rewrite (Hzero Hdiv). rewrite Hdiv in Hdm. lia.
Qed.

Lemma round53_small (n : Z) : Z.log2 n + 1 - 53 <= 0 -> PyNum.round53 n = n.
Proof.
  intros Hs. unfold PyNum.round53.
  destruct (Z.leb_spec (Z.log2 n + 1 - 53) 0); [reflexivity | lia].
Qed.

Lemma round53_idempotent (n : Z) :
  PyNum.round53 (PyNum.round53 n) = PyNum.round53 n.
Proof.
  destruct (Z.leb_spec (Z.log2 n + 1 - 53) 0) as [Hs|Hs].
  - rewrite (round53_small n Hs). now apply round53_small.
  - destruct (round53_parts n Hs) as (_ & _ & Hq & [H|H] & _);
      cbv zeta in *; rewrite H; apply round53_exact; lia.
Qed.

Lemma round53_pos (n : Z) : 0 < n -> 0 < PyNum.round53 n.
Proof.
  intros Hn. destruct (Z.leb_spec (Z.log2 n + 1 - 53) 0) as [Hs|Hs].
  - now rewrite round53_small.
  - destruct (round53_parts n Hs) as (_ & _ & Hq & [H|H] & _);
      cbv zeta in *; rewrite H;
      assert (0 < 2 ^ (Z.log2 n + 1 - 53)) by (apply Z.pow_pos_nonneg; lia);
      nia.
Qed.

(** Rounding does not cross a number that is its own rounding. *)
Lemma round53_between (n f : Z) :
  0 <= n -> 0 <= f -> PyNum.round53 f = f ->
  (n <= f -> PyNum.round53 n <= f) /\ (f <= n -> f <= PyNum.round53 n).
Proof.
  intros Hn Hf Hfix.
  destruct (Z.leb_spec (Z.log2 n + 1 - 53) 0) as [Hs|Hs].
  { rewrite round53_small by exact Hs. split; intros; lia. }
  destruct (round53_parts n Hs) as (Hdm & Hr & Hq & Hround & Hzero).
  cbv zeta in *. set (s := Z.log2 n + 1 - 53) in *.
  set (q := n / 2 ^ s) in *. set (r := n mod 2 ^ s) in *.
  assert (Hpow : 0 < 2 ^ s) by (apply Z.pow_pos_nonneg; lia).
  assert (Hout : f <= q * 2 ^ s \/ (q + 1) * 2 ^ s <= f).
  { destruct (Z.leb_spec f (q * 2 ^ s)) as [Hl|Hlo]; [now left|].
    destruct (Z.leb_spec ((q + 1) * 2 ^ s) f) as [Hh|Hhi]; [now right|].
    exfalso.
    assert (Hlogf : Z.log2 f = Z.log2 n).
    { apply Z.log2_unique; [apply Z.log2_nonneg|].
      replace (Z.log2 n) with (52 + s) by (unfold s; lia).
      replace (Z.succ (52 + s)) with (53 + s) by lia.
      rewrite !Z.pow_add_r by lia.
      assert (2 ^ 52 * 2 ^ s <= q * 2 ^ s)
        by (apply Z.mul_le_mono_nonneg_r; lia).
      assert ((q + 1) * 2 ^ s <= 2 ^ 53 * 2 ^ s)
        by (apply Z.mul_le_mono_nonneg_r; lia).
      lia. }
    assert (Hsf : 0 < Z.log2 f + 1 - 53) by (rewrite Hlogf; exact Hs).
    destruct (round53_parts f Hsf) as (Hdmf & Hrf & _ & Hroundf & _).
    cbv zeta in *. rewrite Hlogf in *. fold s in Hdmf, Hrf, Hroundf.
    rewrite Hfix in Hroundf.
    set (qf := f / 2 ^ s) in *. set (rf := f mod 2 ^ s) in *.
    assert (Hqf : qf = q) by nia.
    destruct Hroundf as [Hf1|Hf1]; nia. }
  split; intros Hle.
  - destruct Hout as [Hlow|Hhigh].
    + assert (Hr0 : r = 0) by nia. rewrite (Hzero Hr0). lia.
    + destruct Hround as [Hn1|Hn1]; rewrite Hn1; nia.
  - destruct Hout as [Hlow|Hhigh].
    + destruct Hround as [Hn1|Hn1]; rewrite Hn1; nia.
    + nia.
Qed.

(** ** Integers as numbers *)

Lemma within_spec (z : Z) : within z = true <-> Z.abs z <= 2 ^ 53.
Proof. unfold within, exact_bound. apply Z.leb_le. Qed.

Lemma exact_in_range (m : Z) :
  0 <= m <= 2 ^ 53 -> m * PyNum.scale < PyNum.overflow_units.
Proof.
  intros Hm. unfold PyNum.overflow_units, PyNum.scale.
  rewrite Z.pow_add_r by (unfold PyNum.unit_exponent; lia).
  assert (0 < 2 ^ PyNum.unit_exponent)
    by (apply Z.pow_pos_nonneg; unfold PyNum.unit_exponent; lia).
  assert (2 ^ 53 < 2 ^ 1024) by (apply Z.pow_lt_mono_r; lia).
  nia.
Qed.

Lemma round53_scaled (m : Z) :
  0 <= m <= 2 ^ 53 -> PyNum.round53 (m * PyNum.scale) = m * PyNum.scale.
Proof.
  intros Hm. unfold PyNum.scale. apply round53_exact; [exact Hm|].
  unfold PyNum.unit_exponent. lia.
Qed.

(** A float that is an integer has that integer of units, scaled. *)
Lemma denotes_float (f : PyNum.Double) (z : Z) :
  denotes (PyNum.PyFloat f) z = true ->
  exists a k, f = PyNum.Fin a k /\ Z.of_N k = Z.abs z * PyNum.scale /\
              PyNum.signed a k = z * PyNum.scale /\
              (z = 0 \/ a = (z <? 0)).
Proof.
  destruct f as [|a|a k]; cbn [denotes]; try discriminate.
  intros H. apply andb_true_iff in H as [Hk Hs]. apply Z.eqb_eq in Hk.
  exists a, k. split; [reflexivity|]. split; [exact Hk|].
  apply orb_true_iff in Hs. unfold PyNum.signed. rewrite Hk.
  destruct Hs as [Hz|Ha].
  - apply Z.eqb_eq in Hz. subst z. split; [destruct a; reflexivity | now left].
  - apply Bool.eqb_prop in Ha. subst a. split; [|now right].
    destruct (Z.ltb_spec z 0); [rewrite Z.abs_neq by lia | rewrite Z.abs_eq by lia];
      lia.
Qed.

Lemma denotes_units (a : bool) (k : N) (z : Z) :
  Z.of_N k = Z.abs z * PyNum.scale -> (z = 0 \/ a = (z <? 0)) ->
  denotes (PyNum.PyFloat (PyNum.Fin a k)) z = true.
Proof.
  intros Hk Hs. cbn [denotes]. apply andb_true_iff. split.
  - now apply Z.eqb_eq.
  - apply orb_true_iff. destruct Hs as [Hz|Ha]; [left | right].
    + now apply Z.eqb_eq.
    + subst a. apply Bool.eqb_reflx.
Qed.

(** The double nearest to an integer within the bound is that integer. *)
Lemma round_units_exact (zn : bool) (z : Z) :
  Z.abs z <= 2 ^ 53 ->
  exists a k, PyNum.round_units zn (z * PyNum.scale) = PyNum.Fin a k /\
              denotes (PyNum.PyFloat (PyNum.Fin a k)) z = true.
Proof.
  intros Hz. pose proof scale_pos as Hsc. unfold PyNum.round_units.
  destruct (Z.eqb_spec (z * PyNum.scale) 0) as [H0|H0].
  - assert (z = 0) by nia. subst z. exists zn, 0%N. split; [reflexivity|].
    apply denotes_units; [reflexivity | now left].
  - assert (Habs : Z.abs (z * PyNum.scale) = Z.abs z * PyNum.scale).
    { rewrite Z.abs_mul, (Z.abs_eq PyNum.scale) by lia. reflexivity. }
    rewrite Habs, round53_scaled by lia.
    pose proof (exact_in_range (Z.abs z) ltac:(lia)) as Hrange.
    destruct (Z.leb_spec PyNum.overflow_units (Z.abs z * PyNum.scale));
      [lia|].
    eexists _, _. split; [reflexivity|].
    apply denotes_units.
    + rewrite Z2N.id by nia. reflexivity.
    + right. destruct (Z.ltb_spec (z * PyNum.scale) 0),
                      (Z.ltb_spec z 0); try reflexivity; nia.
Qed.

Lemma float_of_int_exact (z : Z) :
  Z.abs z <= 2 ^ 53 ->
  exists f, PyNum.float_of_int z = Returns f /\
            denotes (PyNum.PyFloat f) z = true.
Proof.
  intros Hz. unfold PyNum.float_of_int.
  destruct (round_units_exact false z Hz) as (a & k & -> & Hd).
  now exists (PyNum.Fin a k).
Qed.

Lemma fadd_exact (f g : PyNum.Double) (a b : Z) :
  denotes (PyNum.PyFloat f) a = true ->
  denotes (PyNum.PyFloat g) b = true ->
  Z.abs (a + b) <= 2 ^ 53 ->
  denotes (PyNum.PyFloat (PyNum.fadd f g)) (a + b) = true.
Proof.
  intros Hf Hg Hab.
  destruct (denotes_float f a Hf) as (sa & ka & -> & _ & Hva & _).
  destruct (denotes_float g b Hg) as (sb & kb & -> & _ & Hvb & _).
  cbn [PyNum.fadd]. rewrite Hva, Hvb, <- Z.mul_add_distr_r.
  destruct (round_units_exact (sa && sb) (a + b) Hab) as (s & k & -> & Hd).
  exact Hd.
Qed.

Lemma fneg_exact (f : PyNum.Double) (a : Z) :
  denotes (PyNum.PyFloat f) a = true ->
  denotes (PyNum.PyFloat (PyNum.fneg f)) (- a) = true.
Proof.
  intros Hf.
  destruct (denotes_float f a Hf) as (sa & ka & -> & Hk & _ & Hs).
  cbn [PyNum.fneg]. apply denotes_units.
  - now rewrite Z.abs_opp.
  - destruct Hs as [Hz|Hsa]; [left; lia|]. subst sa.
    destruct (Z.eqb_spec a 0) as [Hz|Hne]; [left; lia | right].
    destruct (Z.ltb_spec a 0), (Z.ltb_spec (- a) 0); try reflexivity; lia.
Qed.

Lemma fsub_exact (f g : PyNum.Double) (a b : Z) :
  denotes (PyNum.PyFloat f) a = true ->
  denotes (PyNum.PyFloat g) b = true ->
  Z.abs (a - b) <= 2 ^ 53 ->
  denotes (PyNum.PyFloat (PyNum.fsub f g)) (a - b) = true.
Proof.
  intros Hf Hg Hab. unfold PyNum.fsub.
  replace (a - b) with (a + - b) in * by lia.
  apply fadd_exact; [exact Hf | now apply fneg_exact | exact Hab].
Qed.

Lemma denotes_int (a z : Z) : denotes (PyNum.PyInt a) z = true -> a = z.
Proof. cbn [denotes]. apply Z.eqb_eq. Qed.

(** The sum of two numbers that are integers, within the bound. *)
Lemma add_exact (x y : PyNum.Num) (a b : Z) :
  denotes x a = true -> denotes y b = true ->
  Z.abs a <= 2 ^ 53 -> Z.abs b <= 2 ^ 53 -> Z.abs (a + b) <= 2 ^ 53 ->
  exists s, PyNum.add x y = Returns s /\ denotes s (a + b) = true.
Proof.
  intros Hx Hy Ha Hb Hab. destruct x as [xa|f], y as [yb|g]; cbn [PyNum.add].
  - apply denotes_int in Hx, Hy. subst. eexists. split; [reflexivity|].
    cbn [denotes]. apply Z.eqb_refl.
  - apply denotes_int in Hx. subst xa.
    destruct (float_of_int_exact a Ha) as (f & -> & Hf). cbn [bind].
    eexists. split; [reflexivity|]. now apply fadd_exact.
  - apply denotes_int in Hy. subst yb.
    destruct (float_of_int_exact b Hb) as (g & -> & Hg). cbn [bind].
    eexists. split; [reflexivity|]. now apply fadd_exact.
  - eexists. split; [reflexivity|]. now apply fadd_exact.
Qed.

(** The difference of two numbers that are integers, within the bound. *)
Lemma sub_exact (x y : PyNum.Num) (a b : Z) :
  denotes x a = true -> denotes y b = true ->
  Z.abs a <= 2 ^ 53 -> Z.abs b <= 2 ^ 53 -> Z.abs (a - b) <= 2 ^ 53 ->
  exists s, PyNum.sub x y = Returns s /\ denotes s (a - b) = true.
Proof.
  intros Hx Hy Ha Hb Hab. destruct x as [xa|f], y as [yb|g]; cbn [PyNum.sub].
  - apply denotes_int in Hx, Hy. subst. eexists. split; [reflexivity|].
    cbn [denotes]. apply Z.eqb_refl.
  - apply denotes_int in Hx. subst xa.
    destruct (float_of_int_exact a Ha) as (f & -> & Hf). cbn [bind].
    eexists. split; [reflexivity|]. now apply fsub_exact.
  - apply denotes_int in Hy. subst yb.
    destruct (float_of_int_exact b Hb) as (g & -> & Hg). cbn [bind].
    eexists. split; [reflexivity|]. now apply fsub_exact.
  - eexists. split; [reflexivity|]. now apply fsub_exact.
Qed.

Lemma neg_exact (x : PyNum.Num) (a : Z) :
  denotes x a = true -> denotes (PyNum.neg x) (- a) = true.
Proof.
  destruct x as [xa|f]; cbn [PyNum.neg].
  - intros H. apply denotes_int in H. subst. cbn [denotes]. apply Z.eqb_refl.
  - apply fneg_exact.
Qed.

Lemma place_exact (x : PyNum.Num) (a : Z) :
  denotes x a = true -> PyNum.place x = Some (PyNum.At (a * PyNum.scale)).
Proof.
  destruct x as [xa|f].
  - intros H. apply denotes_int in H. now subst.
  - intros H. destruct (denotes_float f a H) as (s & k & -> & _ & Hv & _).
    cbn [PyNum.place]. now rewrite Hv.
Qed.

(** Numbers that are integers compare as the integers. *)
Lemma gt_exact (x y : PyNum.Num) (a b : Z) :
  denotes x a = true -> denotes y b = true -> PyNum.gt x y = (b <? a).
Proof.
  intros Hx Hy. unfold PyNum.gt, PyNum.lt.
  rewrite (place_exact x a Hx), (place_exact y b Hy). cbn [PyNum.place_ltb].
  pose proof scale_pos.
  destruct (Z.ltb_spec (b * PyNum.scale) (a * PyNum.scale)),
           (Z.ltb_spec b a); try reflexivity; nia.
Qed.

(** ** The format of integers *)

Lemma str_int_negative (z : Z) :
  z < 0 -> PyStr.str_int z = String "-" (PyStr.str_int (Z.abs z)).
Proof. destruct z; try lia. reflexivity. Qed.

Lemma format_float_exact (a : bool) (k : N) (z : Z) :
  Z.of_N k = Z.abs z * PyNum.scale ->
  PyNum.format_float_2f (PyNum.Fin a k) =
    ((if a then "-" else "") +:+ PyStr.str_int (Z.abs z) +:+ ".00")%string.
Proof.
  intros Hk. pose proof scale_pos as Hsc. unfold PyNum.format_float_2f.
  rewrite Hk.
  assert (Hexp : 0 <= PyNum.unit_exponent) by (unfold PyNum.unit_exponent; lia).
  rewrite Z.shiftr_div_pow2, Z.land_ones, Z.shiftl_mul_pow2
    by (unfold PyNum.unit_exponent; lia).
  change (2 ^ PyNum.unit_exponent) with PyNum.scale.
  replace (100 * (Z.abs z * PyNum.scale)) with (100 * Z.abs z * PyNum.scale)
    by lia.
  rewrite Z.div_mul, Z.mod_mul by lia.
  assert (Hhalf : 0 < 1 * 2 ^ (PyNum.unit_exponent - 1))
    by (apply Z.mul_pos_pos; [lia | apply Z.pow_pos_nonneg;
        unfold PyNum.unit_exponent; lia]).
  destruct (Z.ltb_spec (1 * 2 ^ (PyNum.unit_exponent - 1)) 0); [lia|].
  destruct (Z.eqb_spec 0 (1 * 2 ^ (PyNum.unit_exponent - 1))); [lia|].
  cbn [orb andb].
  rewrite (Z.mul_comm 100), Z.div_mul, Z.mod_mul by lia.
  reflexivity.
Qed.

(** The format of a number that is an integer within the bound: its
    digits and two zero decimals, after a minus sign for the negative
    zero. *)
Lemma format_exact (x : PyNum.Num) (z : Z) :
  denotes x z = true -> Z.abs z <= 2 ^ 53 ->
  exists s, PyNum.format_2f x = Returns s /\
            PyStr.contains (PyStr.str_int z +:+ ".00") s = true /\
            (s = (PyStr.str_int z +:+ ".00")%string \/
             s = String "-" (PyStr.str_int z +:+ ".00")).
Proof.
  intros Hx Hz.
  assert (Hfloat : forall f, denotes (PyNum.PyFloat f) z = true ->
    exists s, PyNum.format_float_2f f = s /\
              PyStr.contains (PyStr.str_int z +:+ ".00") s = true /\
              (s = (PyStr.str_int z +:+ ".00")%string \/
               s = String "-" (PyStr.str_int z +:+ ".00"))).
  { intros f Hf.
    destruct (denotes_float f z Hf) as (a & k & -> & Hk & _ & Hs).
    rewrite (format_float_exact a k z Hk). eexists. split; [reflexivity|].
    destruct (Z.ltb_spec z 0) as [Hneg|Hpos].
    - destruct Hs as [Hz0|Ha]; [lia|]. subst a.
      rewrite (str_int_negative z Hneg). cbn [String.append].
      split; [apply contains_refl | now left].
    - rewrite Z.abs_eq by lia. destruct a.
      + split; [apply (contains_app_l "-"), contains_refl | now right].
      + split; [apply contains_refl | now left]. }
  destruct x as [a|f]; cbn [PyNum.format_2f].
  - apply denotes_int in Hx. subst a.
    destruct (float_of_int_exact z Hz) as (f & -> & Hf). cbn [bind].
    destruct (Hfloat f Hf) as (s & <- & Hs). now eexists.
  - destruct (Hfloat f Hx) as (s & <- & Hs). now eexists.
Qed.

(** ** Messages *)

(** A call that gets as far as its message has appended its record; the
    message is a confirmation, never the refusal. *)
Lemma deposit_message (self : BankAccount) (amount : PyNum.Num)
    (now : DateTime) (msg : string) :
  fst (deposit self amount now) = Returns msg -> succeeded (Returns msg) = true.
Proof.
  unfold deposit. destruct (PyNum.add (balance self) amount) as [sum|e];
    cbn [fst]; [|discriminate].
  destruct (PyNum.format_2f amount) as [a|e]; cbn [bind]; [|discriminate].
  destruct (PyNum.format_2f _) as [b|e]; cbn [bind]; [|discriminate].
  intros [= <-]. reflexivity.
Qed.

(** ** Withdrawals *)

(** C1. For every account and every amount greater than the balance,
    [withdraw] returns the string "Insufficient funds." and mutates
    nothing: the balance is the same and no transaction record is
    appended (the whole account is the same). *)
Theorem withdraw_insufficient (self : BankAccount) (amount : PyNum.Num)
    (now : DateTime) :
  PyNum.gt amount (balance self) = true ->
  fst (withdraw self amount now) = Returns "Insufficient funds."%string /\
  balance (snd (withdraw self amount now)) = balance self /\
  transactions (snd (withdraw self amount now)) = transactions self /\
  snd (withdraw self amount now) = self.
Proof. intros Hgt. unfold withdraw. rewrite Hgt. repeat split. Qed.

(** What [withdraw] does with numbers that are integers within the bound,
    when the amount is not above the balance. *)
Lemma withdraw_exact (self : BankAccount) (amount : PyNum.Num)
    (now : DateTime) (a b : Z) :
  denotes (balance self) b = true ->
  denotes amount a = true ->
  Z.abs a <= 2 ^ 53 -> Z.abs b <= 2 ^ 53 -> Z.abs (b - a) <= 2 ^ 53 ->
  a <= b ->
  exists msg,
    fst (withdraw self amount now) = Returns msg /\
    PyStr.startswith "Withdrew $" msg = true /\
    PyStr.contains (PyStr.str_int (b - a) +:+ ".00") msg = true /\
    denotes (balance (snd (withdraw self amount now))) (b - a) = true /\
    transactions (snd (withdraw self amount now)) =
      transactions self ++ [("Withdraw"%string, PyNum.neg amount, now)].
Proof.
  intros Hb Ha Hwa Hwb Hwd Hle. unfold withdraw.
  rewrite (gt_exact amount (balance self) a b Ha Hb).
  destruct (Z.ltb_spec b a) as [Hlt|_]; [lia|].
  destruct (sub_exact (balance self) amount b a Hb Ha Hwb Hwa Hwd)
    as (d & -> & Hd).
  cbn [fst snd balance transactions].
  destruct (format_exact amount a Ha Hwa) as (sa & -> & _).
  destruct (format_exact d (b - a) Hd Hwd) as (sd & -> & Hsd & _).
  cbn [bind]. eexists. split; [reflexivity|].
  split; [reflexivity|]. split; [|split; [exact Hd | reflexivity]].
  do 3 apply contains_app_l. exact Hsd.
Qed.

(** C3, as the specification states it, fails: floats round, so a
    withdrawal of 1.0 from 9007199254740994.0 leaves 9007199254740992.0,
    two less; and an int too large for [:.2f] makes [withdraw] raise
    after it has changed the account, so no confirmation is returned. *)
Lemma withdraw_sufficient_counterexample :
  PyNum.gt (whole 1) (balance rich) = false /\
  balance (snd (withdraw rich (whole 1) time1)) = whole 9007199254740992 /\
  denotes (balance (snd (withdraw rich (whole 1) time1)))
    (9007199254740994 - 1) = false /\
  PyNum.gt (PyNum.PyInt 0) (PyNum.PyInt (10 ^ 400)) = false /\
  fst (withdraw
         (BankAccount_init draw3 day1 "Bob" (PyNum.PyInt (10 ^ 400)) "Checking")
         (PyNum.PyInt 0) time1)
    = Raises "OverflowError".
Proof. repeat split; vm_compute; reflexivity. Qed.

(** C3, amended. For every account and every amount that are integers of
    magnitude at most 2^53 (as ints or as floats), with a difference
    within that magnitude and the amount not above the balance,
    [withdraw] lowers the balance by exactly the amount, appends one
    record [("Withdraw", -amount, now)], and returns a confirmation,
    which contains the digits of the new balance with two decimals. *)
Theorem withdraw_sufficient (self : BankAccount) (amount : PyNum.Num)
    (now : DateTime) (a b : Z) :
  denotes (balance self) b = true ->
  denotes amount a = true ->
  within a = true -> within b = true -> within (b - a) = true ->
  a <= b ->
  denotes (balance (snd (withdraw self amount now))) (b - a) = true /\
  transactions (snd (withdraw self amount now)) =
    transactions self ++ [("Withdraw"%string, PyNum.neg amount, now)] /\
  denotes (PyNum.neg amount) (- a) = true /\
  exists msg,
    fst (withdraw self amount now) = Returns msg /\
    PyStr.startswith "Withdrew $" msg = true /\
    PyStr.contains (PyStr.str_int (b - a) +:+ ".00") msg = true.
Proof.
  intros Hb Ha Hwa Hwb Hwd Hle.
  apply within_spec in Hwa, Hwb, Hwd.
  destruct (withdraw_exact self amount now a b Hb Ha Hwa Hwb Hwd Hle)
    as (msg & Hmsg & Hstart & Hcontains & Hbal & Hts).
  split; [exact Hbal|]. split; [exact Hts|].
  split; [now apply neg_exact|]. now exists msg.
Qed.

(** C9, as the specification states it, fails on floats: withdrawing -1.0
    from the balance 2.0 ** 53 records the amount 1.0 and leaves the
    balance as it was, not increased. *)
Lemma withdraw_negative_counterexample :
  PyNum.lt (PyNum.neg (whole 1)) (PyNum.PyInt 0) = true /\
  PyNum.gt (PyNum.neg (whole 1)) (balance richer) = false /\
  succeeded (fst (withdraw richer (PyNum.neg (whole 1)) time1)) = true /\
  balance (snd (withdraw richer (PyNum.neg (whole 1)) time1))
    = balance richer /\
  transactions (snd (withdraw richer (PyNum.neg (whole 1)) time1))
    = [("Withdraw"%string, whole 1, time1)].
Proof. repeat split; vm_compute; reflexivity. Qed.

(** C9, amended. [withdraw] only refuses an amount above the balance: for
    a negative amount not above the balance, both integers of magnitude
    at most 2^53 (as ints or as floats) with a difference within that
    magnitude, it succeeds, the balance grows by the absolute value of
    the amount, and the appended Withdraw record stores that positive
    value. *)
Theorem withdraw_negative (self : BankAccount) (amount : PyNum.Num)
    (now : DateTime) (a b : Z) :
  denotes (balance self) b = true ->
  denotes amount a = true ->
  within a = true -> within b = true -> within (b - a) = true ->
  a < 0 ->
  a <= b ->
  succeeded (fst (withdraw self amount now)) = true /\
  denotes (balance (snd (withdraw self amount now))) (b + Z.abs a) = true /\
  (exists stored,
     transactions (snd (withdraw self amount now)) =
       transactions self ++ [("Withdraw"%string, stored, now)] /\
     denotes stored (Z.abs a) = true) /\
  0 < Z.abs a.
Proof.
  intros Hb Ha Hwa Hwb Hwd Hneg Hle.
  apply within_spec in Hwa, Hwb, Hwd.
  destruct (withdraw_exact self amount now a b Hb Ha Hwa Hwb Hwd Hle)
    as (msg & Hmsg & Hstart & _ & Hbal & Hts).
  replace (Z.abs a) with (- a) by lia. split; [|split; [|split]].
  - rewrite Hmsg. apply startswith_spec in Hstart as [rest Hrest].
    subst msg. reflexivity.
  - now replace (b + - a) with (b - a) by lia.
  - exists (PyNum.neg amount). split; [exact Hts | now apply neg_exact].
  - lia.
Qed.

(** ** Sequences of calls on one account *)

Lemma calls_cons (self : BankAccount) (c : AccountCall) (cs : list AccountCall) :
  calls self (c :: cs) =
    (fst (call self c) :: fst (calls (snd (call self c)) cs),
     snd (calls (snd (call self c)) cs)).
Proof.
  simpl. destruct (call self c) as [res self1]. cbn [fst snd].
  destruct (calls self1 cs) as [ress self2]. reflexivity.
Qed.

Lemma calls_length (self : BankAccount) (cs : list AccountCall) :
  length (fst (calls self cs)) = length cs.
Proof.
  revert self. induction cs as [|c cs IH]; intros self; [reflexivity|].
  rewrite calls_cons. cbn [fst length]. now rewrite IH.
Qed.

Lemma last_cons_default {A : Type} (l : list A) (x d : A) :
  List.last (x :: l) d = List.last l x.
Proof.
  revert x d. induction l as [|y l IH]; intros x d; [reflexivity|].
  change (List.last (x :: y :: l) d) with (List.last (y :: l) d).
  now rewrite (IH y d), (IH y x).
Qed.

Lemma last_Forall {A : Type} (P : A -> Prop) (l : list A) (d : A) :
  Forall P l -> P d -> P (List.last l d).
Proof.
  intros Hl. revert d. induction Hl as [|x l Hx Hl IH]; intros d Hd.
  - exact Hd.
  - rewrite last_cons_default. now apply IH.
Qed.

(** The balance at the end is the last of the balances along the way. *)
Lemma balances_last (self : BankAccount) (cs : list AccountCall) :
  balance (snd (calls self cs)) = List.last (balances self cs) (balance self).
Proof.
  revert self. induction cs as [|c cs IH]; intros self; [reflexivity|].
  rewrite calls_cons. cbn [snd balances]. rewrite IH.
  symmetry. apply last_cons_default.
Qed.

Lemma message_succeeded (a b : Result string) (head mid : string) :
  head <> EmptyString ->
  String.get 0 head <> String.get 0 insufficient_funds ->
  returned (let* x := a in let* y := b in
            Returns (head +:+ x +:+ mid +:+ y)) = true ->
  succeeded (let* x := a in let* y := b in
             Returns (head +:+ x +:+ mid +:+ y)) = true.
Proof.
  intros Hne Hget. destruct a as [x|e]; cbn [bind]; [|discriminate].
  destruct b as [y|e]; cbn [bind]; [|discriminate]. intros _.
  cbn [succeeded]. apply negb_true_iff. apply String.eqb_neq.
  intros Heq. apply Hget. rewrite <- Heq.
  destruct head as [|c head]; [congruence | reflexivity].
Qed.

(** What one call does to the history: it leaves it as it was, and then
    it did not succeed, or it appends its record, and then it succeeded
    unless it raised while it made its message. *)
Lemma call_effect (self : BankAccount) (c : AccountCall) :
  (transactions (snd (call self c)) = transactions self /\
   succeeded (fst (call self c)) = false) \/
  (transactions (snd (call self c)) = transactions self ++ [record_of c] /\
   (returned (fst (call self c)) = true ->
    succeeded (fst (call self c)) = true)).
Proof.
  destruct c as [amount now|amount now]; cbn [call record_of].
  - unfold deposit. destruct (PyNum.add (balance self) amount) as [sum|e].
    + right. cbn [fst snd transactions]. split; [reflexivity|].
      apply message_succeeded; [discriminate | cbn; discriminate].
    + left. now split.
  - unfold withdraw. destruct (PyNum.gt amount (balance self)).
    + left. now split.
    + destruct (PyNum.sub (balance self) amount) as [d|e].
      * right. cbn [fst snd transactions]. split; [reflexivity|].
        apply message_succeeded; [discriminate | cbn; discriminate].
      * left. now split.
Qed.

(** Calls on floats do not raise, and leave a float. *)
Lemma float_call (self : BankAccount) (c : AccountCall) :
  is_float (balance self) = true -> float_calls [c] = true ->
  returned (fst (call self c)) = true /\
  is_float (balance (snd (call self c))) = true.
Proof.
  intros Hb Hc. destruct (balance self) as [z|f] eqn:Eb; [discriminate|].
  destruct c as [[z|g] now|[z|g] now]; try discriminate; cbn [call].
  - unfold deposit. rewrite Eb. cbn. now split.
  - unfold withdraw. rewrite Eb.
    destruct (PyNum.gt _ _); cbn; rewrite ?Eb; now split.
Qed.

(** What [deposit] does with numbers that are integers within the
    bound. *)
Lemma deposit_exact (self : BankAccount) (amount : PyNum.Num)
    (now : DateTime) (a b : Z) :
  denotes (balance self) b = true ->
  denotes amount a = true ->
  Z.abs a <= 2 ^ 53 -> Z.abs b <= 2 ^ 53 -> Z.abs (b + a) <= 2 ^ 53 ->
  exists msg,
    fst (deposit self amount now) = Returns msg /\
    PyStr.startswith "Deposited $" msg = true /\
    PyStr.contains (PyStr.str_int (b + a) +:+ ".00") msg = true /\
    denotes (balance (snd (deposit self amount now))) (b + a) = true /\
    transactions (snd (deposit self amount now)) =
      transactions self ++ [("Deposit"%string, amount, now)].
Proof.
  intros Hb Ha Hwa Hwb Hws. unfold deposit.
  destruct (add_exact (balance self) amount b a Hb Ha Hwb Hwa Hws)
    as (s & -> & Hs).
  cbn [fst snd balance transactions].
  destruct (format_exact amount a Ha Hwa) as (sa & -> & _).
  destruct (format_exact s (b + a) Hs Hws) as (ss & -> & Hss & _).
  cbn [bind]. eexists. split; [reflexivity|].
  split; [reflexivity|]. split; [|split; [exact Hs | reflexivity]].
  do 3 apply contains_app_l. exact Hss.
Qed.

(** C4, as the specification states it, fails: floats round, so a deposit
    of 1.0 on the balance 2.0 ** 53 leaves the balance as it was, not the
    sum; and a deposit of an int too large for [:.2f] raises after it has
    changed the account, so it returns no confirmation. *)
Lemma deposits_total_counterexample :
  balance (snd (calls richer (deposits [(whole 1, time1)]))) = balance richer /\
  denotes (balance (snd (calls richer (deposits [(whole 1, time1)]))))
    (2 ^ 53 + 1) = false /\
  fst (calls alice (deposits [(PyNum.PyInt (10 ^ 400), time1)]))
    = [Raises "OverflowError"].
Proof. repeat split; vm_compute; reflexivity. Qed.

(** C4, amended. For every account and every sequence of deposited
    amounts that are integers (as ints or as floats), where the amounts,
    the balance at the start and every balance along the way are of
    magnitude at most 2^53: the balance at the end is the balance at the
    start plus the sum of the amounts, no deposit is refused or raises,
    and the message of each deposit contains the digits of the balance
    that the deposit left, with two decimals. *)
Theorem deposits_total (self : BankAccount)
    (amounts : list (PyNum.Num * DateTime)) (b : Z) (zs : list Z) :
  denotes (balance self) b = true ->
  within b = true ->
  denote_all (map fst amounts) zs = true ->
  sums_within b zs = true ->
  denotes (balance (snd (calls self (deposits amounts)))) (b + total zs)
    = true /\
  Forall (fun res => succeeded res = true)
    (fst (calls self (deposits amounts))) /\
  Forall2 (fun res z =>
             exists msg, res = Returns msg /\
               PyStr.contains (PyStr.str_int z +:+ ".00") msg = true)
    (fst (calls self (deposits amounts))) (running b zs).
Proof.
  revert self b zs.
  induction amounts as [|[amount now] amounts IH]; intros self b zs Hb Hwb Hall Hsums.
  - destruct zs; [|discriminate]. cbn. rewrite Z.add_0_r.
    split; [exact Hb|]. split; constructor.
  - destruct zs as [|z zs]; [discriminate|].
    cbn [map fst denote_all] in Hall. apply andb_true_iff in Hall as [Hz Hall].
    cbn [sums_within] in Hsums.
    apply andb_true_iff in Hsums as [Hsums Hrest].
    apply andb_true_iff in Hsums as [Hwz Hwbz].
    change (deposits ((amount, now) :: amounts))
      with (CallDeposit amount now :: deposits amounts).
    rewrite calls_cons. cbn [fst snd call running total fold_right].
    pose proof Hwbz as Hwbz'.
    apply within_spec in Hwz, Hwb, Hwbz'.
    destruct (deposit_exact self amount now z b Hb Hz Hwz Hwb Hwbz')
      as (msg & Hmsg & Hstart & Hcontains & Hbal & _).
    destruct (IH (snd (deposit self amount now)) (b + z) zs Hbal Hwbz Hall
                Hrest) as (Hend & Hsucc & Hmsgs).
    split; [|split].
    + fold (total zs). now replace (b + (z + total zs)) with (b + z + total zs)
        by lia.
    + constructor; [|exact Hsucc]. rewrite Hmsg.
      apply startswith_spec in Hstart as [rest ->]. reflexivity.
    + constructor; [|exact Hmsgs]. now exists msg.
Qed.

(** C5, as the specification states it, fails: a deposit of an int too
    large for [:.2f] appends its record and then raises, so the history
    has a record of a call that did not succeed. *)
Lemma transactions_counterexample :
  fst (calls alice [CallDeposit (PyNum.PyInt (10 ^ 400)) time1])
    = [Raises "OverflowError"] /\
  length (transactions
            (snd (calls alice [CallDeposit (PyNum.PyInt (10 ^ 400)) time1])))
    = 1%nat /\
  length (List.filter succeeded
            (fst (calls alice [CallDeposit (PyNum.PyInt (10 ^ 400)) time1])))
    = 0%nat.
Proof. repeat split; vm_compute; reflexivity. Qed.

(** C5, amended. For every account and every sequence of deposits and
    withdrawals, the history only grows at its end: it is the history at
    the start followed by records of some of the calls, in the order of
    the calls.  When no call raises, which is so whenever the balance
    and the amounts are floats, those are the records of the successful
    calls, so a refused withdrawal appends nothing and the history grows
    by the number of successful calls. *)
Theorem transactions_append_only (self : BankAccount) (cs : list AccountCall) :
  length (fst (calls self cs)) = length cs /\
  (exists appended,
     transactions (snd (calls self cs)) = transactions self ++ appended /\
     sublist appended (map record_of cs)) /\
  (forallb returned (fst (calls self cs)) = true ->
   transactions (snd (calls self cs)) =
     transactions self ++ map record_of (successful cs (fst (calls self cs))) /\
   length (transactions (snd (calls self cs))) =
     (length (transactions self) +
      length (List.filter succeeded (fst (calls self cs))))%nat) /\
  (is_float (balance self) = true -> float_calls cs = true ->
   forallb returned (fst (calls self cs)) = true).
Proof.
  split; [apply calls_length|]. split; [|split].
  - revert self. induction cs as [|c cs IH]; intros self.
    + exists []. split; [now rewrite app_nil_r | constructor].
    + rewrite calls_cons. cbn [snd map].
      destruct (IH (snd (call self c))) as (app & Happ & Hsub).
      destruct (call_effect self c) as [[Hsame _]|[Hgrow _]].
      * exists app. rewrite Happ, Hsame. split; [reflexivity|].
        now apply sublist_cons.
      * exists (record_of c :: app). rewrite Happ, Hgrow, <- app_assoc.
        split; [reflexivity|]. now apply sublist_skip.
  - intros Hret.
    assert (Happ : transactions (snd (calls self cs)) =
      transactions self ++ map record_of (successful cs (fst (calls self cs)))).
    { revert self Hret. induction cs as [|c cs IH]; intros self Hret.
      - cbn. now rewrite app_nil_r.
      - rewrite calls_cons in *. cbn [fst snd successful forallb] in *.
        apply andb_true_iff in Hret as [Hc Hret].
        rewrite (IH _ Hret).
        destruct (call_effect self c) as [[Hsame Hno]|[Hgrow Hyes]].
        + rewrite Hsame, Hno. reflexivity.
        + rewrite Hgrow, (Hyes Hc), <- app_assoc. reflexivity. }
    split; [exact Happ|]. rewrite Happ, length_app, length_map. f_equal.
    clear. revert self. induction cs as [|c cs IH]; intros self; [reflexivity|].
    rewrite calls_cons. cbn [fst successful List.filter].
    destruct (succeeded (fst (call self c))); [|apply IH].
    cbn [length]. now rewrite IH.
  - revert self. induction cs as [|c cs IH]; intros self Hb Hcs; [reflexivity|].
    rewrite calls_cons. cbn [fst forallb].
    cbn [float_calls forallb] in Hcs. apply andb_true_iff in Hcs as [Hc Hcs].
    destruct (float_call self c Hb) as [Hret Hfloat].
    { cbn [float_calls forallb]. now rewrite Hc. }
    rewrite Hret. cbn [andb]. now apply IH.
Qed.

(** ** The balance invariant *)

Lemma overflow_units_pos : 0 < PyNum.overflow_units.
Proof.
  unfold PyNum.overflow_units. apply Z.pow_pos_nonneg;
    unfold PyNum.unit_exponent; lia.
Qed.

Lemma signed_negb (s : bool) (k : N) :
  PyNum.signed (negb s) k = - PyNum.signed s k.
Proof. destruct s; cbn; lia. Qed.

Lemma nonneg_fin (s : bool) (k : N) :
  nonneg (PyNum.PyFloat (PyNum.Fin s k)) = true <-> 0 <= PyNum.signed s k.
Proof.
  unfold nonneg, PyNum.ge, PyNum.le. cbn [PyNum.place PyNum.place_ltb].
  rewrite Z.mul_0_l, negb_true_iff, Z.ltb_ge. reflexivity.
Qed.

Lemma nonneg_int (z : Z) : nonneg (PyNum.PyInt z) = true <-> 0 <= z.
Proof.
  unfold nonneg, PyNum.ge, PyNum.le. cbn [PyNum.place PyNum.place_ltb].
  rewrite Z.mul_0_l, negb_true_iff, Z.ltb_ge.
  pose proof scale_pos. split; nia.
Qed.

(** What [round_units] gives is a double, of the sign of what it
    rounds. *)
Lemma round_units_double (zn : bool) (z : Z) :
  is_double (PyNum.PyFloat (PyNum.round_units zn z)) = true.
Proof.
  unfold PyNum.round_units. pose proof overflow_units_pos.
  destruct (Z.eqb_spec z 0) as [Hz|Hz].
  - cbn [is_double]. apply andb_true_iff. split; [reflexivity|].
    apply Z.ltb_lt. cbn. lia.
  - destruct (Z.leb_spec PyNum.overflow_units (PyNum.round53 (Z.abs z)));
      [reflexivity|].
    cbn [is_double].
    assert (0 < PyNum.round53 (Z.abs z)) by (apply round53_pos; lia).
    rewrite Z2N.id by lia. apply andb_true_iff. split.
    + apply Z.eqb_eq, round53_idempotent.
    + now apply Z.ltb_lt.
Qed.

Lemma round_units_nonneg (zn : bool) (z : Z) :
  0 <= z -> nonneg (PyNum.PyFloat (PyNum.round_units zn z)) = true.
Proof.
  intros Hz. unfold PyNum.round_units.
  destruct (Z.eqb_spec z 0) as [H0|H0].
  - apply nonneg_fin. destruct zn; cbn; lia.
  - destruct (Z.ltb_spec z 0); [lia|].
    destruct (Z.leb_spec PyNum.overflow_units (PyNum.round53 (Z.abs z)));
      [reflexivity|].
    apply nonneg_fin. cbn. lia.
Qed.

(** The float of an int, when there is one, is finite, and is on the same
    side as the int of every double. *)
Lemma float_of_int_side (a : Z) (f : PyNum.Double) :
  PyNum.float_of_int a = Returns f ->
  exists s k, f = PyNum.Fin s k /\
    is_double (PyNum.PyFloat f) = true /\
    (0 <= a -> 0 <= PyNum.signed s k) /\
    forall su ku, PyNum.round53 (Z.of_N ku) = Z.of_N ku ->
      (a * PyNum.scale <= PyNum.signed su ku ->
       PyNum.signed s k <= PyNum.signed su ku) /\
      (PyNum.signed su ku <= a * PyNum.scale ->
       PyNum.signed su ku <= PyNum.signed s k).
Proof.
  unfold PyNum.float_of_int. intros Hf.
  pose proof (round_units_double false (a * PyNum.scale)) as Hd.
  assert (Hsign : 0 <= a -> 0 <= a * PyNum.scale)
    by (pose proof scale_pos; nia).
  set (v := a * PyNum.scale) in *. clearbody v.
  unfold PyNum.round_units in *.
  destruct (Z.eqb_spec v 0) as [H0|H0].
  - injection Hf as <-. exists false, 0%N. split; [reflexivity|].
    split; [exact Hd|]. split; [cbn; lia|].
    intros su ku _. rewrite H0. cbn. lia.
  - destruct (Z.leb_spec PyNum.overflow_units (PyNum.round53 (Z.abs v)));
      [discriminate|].
    injection Hf as <-. eexists _, _. split; [reflexivity|].
    split; [exact Hd|].
    assert (Hn : 0 < Z.abs v) by lia.
    assert (Hr : 0 < PyNum.round53 (Z.abs v)) by now apply round53_pos.
    assert (Hval :
      PyNum.signed (v <? 0) (Z.to_N (PyNum.round53 (Z.abs v))) =
      if v <? 0 then - PyNum.round53 (Z.abs v) else PyNum.round53 (Z.abs v))
      by (unfold PyNum.signed; rewrite Z2N.id by lia; reflexivity).
    rewrite Hval. clear Hval.
    split.
    + intros Ha. specialize (Hsign Ha).
      destruct (Z.ltb_spec v 0); cbv iota; lia.
    + intros su ku Hfix.
      pose proof (round53_between (Z.abs v) (Z.of_N ku) ltac:(lia) ltac:(lia)
                    Hfix) as [Hup Hdown].
      assert (Hsu : PyNum.signed su ku = Z.of_N ku \/
                    PyNum.signed su ku = - Z.of_N ku)
        by (destruct su; cbn; lia).
      destruct (Z.ltb_spec v 0) as [Hneg|Hpos];
        split; intros Hle; destruct Hsu as [Hv|Hv]; rewrite Hv in *;
        cbv iota; lia.
Qed.

Lemma fadd_fin (s1 s2 : bool) (k1 k2 : N) :
  0 <= PyNum.signed s1 k1 + PyNum.signed s2 k2 ->
  is_double (PyNum.PyFloat (PyNum.fadd (PyNum.Fin s1 k1) (PyNum.Fin s2 k2)))
    = true /\
  nonneg (PyNum.PyFloat (PyNum.fadd (PyNum.Fin s1 k1) (PyNum.Fin s2 k2)))
    = true.
Proof.
  intros H. cbn [PyNum.fadd]. split.
  - apply round_units_double.
  - now apply round_units_nonneg.
Qed.

(** The sum of two numbers that are not negative is a double that is not
    negative. *)
Lemma add_nonneg (x y s : PyNum.Num) :
  nonneg x = true -> nonneg y = true -> is_double x = true ->
  PyNum.add x y = Returns s ->
  is_double s = true /\ nonneg s = true.
Proof.
  intros Hx Hy Hdx.
  assert (Hff : forall f g,
    nonneg (PyNum.PyFloat f) = true -> nonneg (PyNum.PyFloat g) = true ->
    is_double (PyNum.PyFloat (PyNum.fadd f g)) = true /\
    nonneg (PyNum.PyFloat (PyNum.fadd f g)) = true).
  { intros [|[|]|s1 k1] [|[|]|s2 k2] Hf Hg; try discriminate;
      try (now split).
    apply nonneg_fin in Hf, Hg. apply fadd_fin. lia. }
  destruct x as [a|f], y as [b|g]; cbn [PyNum.add].
  - intros [= <-]. apply nonneg_int in Hx, Hy. split; [reflexivity|].
    apply nonneg_int. lia.
  - destruct (PyNum.float_of_int a) as [f|e] eqn:Ef; cbn [bind];
      [|discriminate].
    intros [= <-]. apply nonneg_int in Hx.
    destruct (float_of_int_side a f Ef) as (s1 & k1 & -> & _ & Hpos & _).
    apply Hff; [|exact Hy]. apply nonneg_fin. auto.
  - destruct (PyNum.float_of_int b) as [g|e] eqn:Eg; cbn [bind];
      [|discriminate].
    intros [= <-]. apply nonneg_int in Hy.
    destruct (float_of_int_side b g Eg) as (s1 & k1 & -> & _ & Hpos & _).
    apply Hff; [exact Hx|]. apply nonneg_fin. auto.
  - intros [= <-]. now apply Hff.
Qed.

Lemma double_fixed (s : bool) (k : N) :
  is_double (PyNum.PyFloat (PyNum.Fin s k)) = true ->
  PyNum.round53 (Z.of_N k) = Z.of_N k.
Proof.
  cbn [is_double]. intros H. apply andb_true_iff in H as [H _].
  now apply Z.eqb_eq.
Qed.

(** The difference of a balance that is not negative and an amount that
    is not above it, and is neither not-a-number nor plus infinity, is a
    double that is not negative. *)
Lemma sub_nonneg (x y d : PyNum.Num) :
  nonneg x = true -> is_double x = true ->
  is_double y = true -> subtractable y = true ->
  PyNum.gt y x = false ->
  PyNum.sub x y = Returns d ->
  is_double d = true /\ nonneg d = true.
Proof.
  intros Hx Hdx Hdy Hsy Hgt.
  assert (Hfin : forall s1 k1 s2 k2,
    PyNum.signed s2 k2 <= PyNum.signed s1 k1 ->
    is_double (PyNum.PyFloat (PyNum.fsub (PyNum.Fin s1 k1) (PyNum.Fin s2 k2)))
      = true /\
    nonneg (PyNum.PyFloat (PyNum.fsub (PyNum.Fin s1 k1) (PyNum.Fin s2 k2)))
      = true).
  { intros s1 k1 s2 k2 Hle. unfold PyNum.fsub. cbn [PyNum.fneg].
    apply fadd_fin. rewrite signed_negb. lia. }
  unfold PyNum.gt, PyNum.lt in Hgt.
  destruct x as [b|f], y as [a|g]; cbn [PyNum.sub].
  - intros [= <-]. cbn [PyNum.place PyNum.place_ltb] in Hgt.
    apply Z.ltb_ge in Hgt. pose proof scale_pos.
    split; [reflexivity|]. apply nonneg_int. nia.
  - destruct (PyNum.float_of_int b) as [f|e] eqn:Ef; cbn [bind];
      [|discriminate].
    intros [= <-]. apply nonneg_int in Hx.
    destruct (float_of_int_side b f Ef) as (s1 & k1 & -> & _ & Hpos & Hside).
    destruct g as [|[|]|s2 k2]; try discriminate.
    + now split.
    + cbn [PyNum.place PyNum.place_ltb] in Hgt. apply Z.ltb_ge in Hgt.
      apply Hfin. apply (Hside s2 k2); [now apply (double_fixed s2)|].
      exact Hgt.
  - destruct (PyNum.float_of_int a) as [g|e] eqn:Eg; cbn [bind];
      [|discriminate].
    intros [= <-].
    destruct (float_of_int_side a g Eg) as (s2 & k2 & -> & _ & _ & Hside).
    destruct f as [|[|]|s1 k1]; try discriminate.
    + now split.
    + cbn [PyNum.place PyNum.place_ltb] in Hgt. apply Z.ltb_ge in Hgt.
      apply Hfin. apply (Hside s1 k1); [now apply (double_fixed s1)|].
      exact Hgt.
  - intros [= <-].
    destruct f as [|[|]|s1 k1], g as [|[|]|s2 k2]; try discriminate;
      try (now split).
    cbn [PyNum.place PyNum.place_ltb] in Hgt. apply Z.ltb_ge in Hgt.
    now apply Hfin.
Qed.

Lemma call_nonneg (self : BankAccount) (c : AccountCall) :
  is_double (balance self) = true -> nonneg (balance self) = true ->
  calls_admitted [c] = true ->
  is_double (balance (snd (call self c))) = true /\
  nonneg (balance (snd (call self c))) = true.
Proof.
  intros Hd Hn Hc. cbn [calls_admitted forallb] in Hc.
  rewrite andb_true_r in Hc.
  destruct c as [amount now|amount now]; cbn [call];
    apply andb_true_iff in Hc as [Hda Ha].
  - unfold deposit.
    destruct (PyNum.add (balance self) amount) as [s|e] eqn:E;
      cbn [snd balance]; [|now split].
    now apply (add_nonneg (balance self) amount).
  - unfold withdraw.
    destruct (PyNum.gt amount (balance self)) eqn:Egt; [now split|].
    destruct (PyNum.sub (balance self) amount) as [d|e] eqn:E;
      cbn [snd balance]; [|now split].
    now apply (sub_nonneg (balance self) amount).
Qed.

Lemma balances_nonneg (self : BankAccount) (cs : list AccountCall) :
  is_double (balance self) = true -> nonneg (balance self) = true ->
  calls_admitted cs = true ->
  Forall (fun b => nonneg b = true) (balances self cs).
Proof.
  revert self. induction cs as [|c cs IH]; intros self Hd Hn Hcs.
  - constructor.
  - cbn [calls_admitted forallb] in Hcs.
    apply andb_true_iff in Hcs as [Hc Hcs].
    destruct (call_nonneg self c Hd Hn) as [Hd' Hn'].
    { cbn [calls_admitted forallb]. now rewrite Hc. }
    cbn [balances]. constructor; [exact Hn'|]. now apply IH.
Qed.

(** C2, as the specification states it, fails: the constructor stores a
    negative initial balance as it is, [deposit] adds a negative amount
    as it is, and a float balance of infinity, from which infinity is
    withdrawn, becomes not-a-number. *)
Lemma balance_negative_counterexample :
  nonneg (balance (BankAccount_init draw3 day1 "Bob" (PyNum.PyInt (-50))
                     "Checking")) = false /\
  nonneg (balance (snd (deposit alice (PyNum.PyInt (-110)) time1))) = false /\
  nonneg (balance (snd (withdraw
            (BankAccount_init draw3 day1 "Bob"
               (PyNum.PyFloat (PyNum.Inf false)) "Checking")
            (PyNum.PyFloat (PyNum.Inf false)) time1))) = false.
Proof. repeat split; vm_compute; reflexivity. Qed.

(** C2, amended. For every account constructed with a non-negative
    initial balance, the balance is non-negative after construction and
    after every call of a sequence of deposits of non-negative amounts
    and of withdrawals of amounts that are neither not-a-number nor plus
    infinity. *)
Theorem balance_nonneg (r : Z) (today : Date) (name : string)
    (initial : PyNum.Num) (ty : string) (cs : list AccountCall) :
  is_double initial = true ->
  nonneg initial = true ->
  calls_admitted cs = true ->
  nonneg (balance (BankAccount_init r today name initial ty)) = true /\
  Forall (fun b => nonneg b = true)
    (balances (BankAccount_init r today name initial ty) cs) /\
  nonneg (balance (snd (calls (BankAccount_init r today name initial ty) cs)))
    = true.
Proof.
  intros Hd Hi Hcs.
  assert (Hall := balances_nonneg
                    (BankAccount_init r today name initial ty) cs Hd Hi Hcs).
  split; [exact Hi|]. split; [exact Hall|].
  rewrite balances_last. now apply last_Forall.
Qed.

(** ** The ledger *)

(** C6. For every ledger: [get_account] on an id that is not a key of
    [accounts] returns [None], and so does [delete_account], which leaves
    the ledger as it is; on an id that is a key, [delete_account] returns
    the stored account and removes that entry only; and after
    [delete_account] on an id, [get_account] on it returns [None]. *)
Theorem get_and_delete (self : BankingSystem) (id : string) :
  (id ∉ dom (accounts self) ->
     (get_account self id = None) /\
     (delete_account self id = (None, self))) /\
  (forall acc, get_account self id = Some acc ->
     fst (delete_account self id) = Some acc /\
     (id ∉ dom (accounts (snd (delete_account self id)))) /\
     size (accounts (snd (delete_account self id))) =
       Nat.pred (size (accounts self)) /\
     forall other, other <> id ->
       get_account (snd (delete_account self id)) other =
       get_account self other) /\
  get_account (snd (delete_account self id)) id = None.
Proof.
  unfold get_account, delete_account. split; [|split].
  - intros Hout. apply not_elem_of_dom in Hout. rewrite Hout. now split.
  - intros acc Hin. rewrite Hin. cbn [fst snd accounts].
    split; [reflexivity|]. split; [|split].
    + apply not_elem_of_dom, lookup_delete_eq.
    + apply map_size_delete_Some. now exists acc.
    + intros other Hne. now apply lookup_delete_ne.
  - destruct (accounts self !! id) as [acc|] eqn:E; cbn [snd accounts].
    + apply lookup_delete_eq.
    + exact E.
Qed.

(** C7, as the specification states it, fails: an account number is only
    the first eight hexadecimal digits of a random UUID, so two different
    UUIDs can give the same number, also after the first account was
    deleted. *)
Lemma account_numbers_collide :
  Uuid.str (Uuid.uuid4 draw1) = "1b9d6bcd-bbfd-4b2d-9b5d-ab8dfbbd4bed"%string /\
  Uuid.str (Uuid.uuid4 draw2) = "1b9d6bcd-0c7e-4f11-8a21-3f5a9c0e7d42"%string /\
  fst (ledger_calls BankingSystem_init
         [CallCreate draw1 day1 "Alice" (PyNum.PyInt 100) "Savings";
          CallCreate draw2 day1 "Bob" (PyNum.PyInt 20) "Checking"])
    = ["1b9d6bcd"; "1b9d6bcd"]%string /\
  ~ NoDup (fst (ledger_calls BankingSystem_init
                  [CallCreate draw1 day1 "Alice" (PyNum.PyInt 100) "Savings";
                   CallCreate draw2 day1 "Bob" (PyNum.PyInt 20) "Checking"])) /\
  ~ NoDup (fst (ledger_calls BankingSystem_init
                  [CallCreate draw1 day1 "Alice" (PyNum.PyInt 100) "Savings";
                   CallDelete "1b9d6bcd";
                   CallCreate draw2 day1 "Bob" (PyNum.PyInt 20) "Checking"])).
Proof.
  split; [reflexivity|]. split; [reflexivity|]. split; [reflexivity|].
  split.
  - vm_compute. intros H.
    apply NoDup_cons in H as [Hnin _]. apply Hnin. constructor.
  - vm_compute. intros H.
    apply NoDup_cons in H as [Hnin _]. apply Hnin. constructor.
Qed.

(** C7, amended. For every sequence of [create_account] and
    [delete_account] calls in which the random UUIDs drawn differ pairwise
    in their first eight hexadecimal digits, the account numbers returned
    are those eight-digit prefixes in order, and no two accounts created
    share an account number, whatever was deleted in between. *)
Theorem account_numbers_distinct (self : BankingSystem) (cs : list LedgerCall) :
  NoDup (map number_of_draw (draws cs)) ->
  fst (ledger_calls self cs) = map number_of_draw (draws cs) /\
  NoDup (fst (ledger_calls self cs)).
Proof.
  intros Hdistinct.
  assert (Hids : fst (ledger_calls self cs) = map number_of_draw (draws cs)).
  { clear Hdistinct. revert self.
    induction cs as [|c cs IH]; intros self; [reflexivity|].
    destruct c as [r today name bal ty|acc_number]; cbn [ledger_calls draws].
    - unfold create_account.
      specialize (IH {| accounts :=
        <[account_number (BankAccount_init r today name bal ty) :=
            BankAccount_init r today name bal ty]> (accounts self) |}).
      destruct (ledger_calls _ cs) as [ids self'].
      cbn [fst] in *. now rewrite IH.
    - apply IH. }
  split; [exact Hids | now rewrite Hids].
Qed.

Lemma format_100 : PyNum.format_2f (PyNum.PyInt 100) = Returns "100.00"%string.
Proof. vm_compute. reflexivity. Qed.

(** C8. After [create_account("Alice", 100, "Savings")] returned a number,
    [get_account] of that number returns the account just created, and its
    details contain "Alice", "Savings" and "100.00". *)
Theorem create_then_details (self : BankingSystem) (r : Z) (today : Date) :
  exists acc text,
    get_account
      (snd (create_account self r today "Alice" (PyNum.PyInt 100) "Savings"))
      (fst (create_account self r today "Alice" (PyNum.PyInt 100) "Savings"))
      = Some acc /\
    acc = BankAccount_init r today "Alice" (PyNum.PyInt 100) "Savings" /\
    get_details acc = Returns text /\
    PyStr.contains "Alice" text = true /\
    PyStr.contains "Savings" text = true /\
    PyStr.contains "100.00" text = true.
Proof.
  exists (BankAccount_init r today "Alice" (PyNum.PyInt 100) "Savings").
  eexists. split; [apply lookup_insert_eq|]. split; [reflexivity|].
  unfold get_details.
  cbn [BankAccount_init account_holder_name account_type balance].
  rewrite format_100. cbn [bind]. split; [reflexivity|].
  repeat split; find_piece.
Qed.

(** C10. [create_account] assigns into the dictionary without looking: when
    the number generated for the new account is already the key of an
    account, [create_account] still returns that number, the entry under
    it is now the new account, the other entries are as they were, and the
    ledger holds as many accounts as before. *)
Theorem create_account_replaces (self : BankingSystem) (r : Z) (today : Date)
    (name : string) (bal : PyNum.Num) (ty : string) (old : BankAccount) :
  get_account self (number_of_draw r) = Some old ->
  fst (create_account self r today name bal ty) = number_of_draw r /\
  get_account (snd (create_account self r today name bal ty))
              (number_of_draw r)
    = Some (BankAccount_init r today name bal ty) /\
  size (accounts (snd (create_account self r today name bal ty))) =
    size (accounts self) /\
  forall other, other <> number_of_draw r ->
    get_account (snd (create_account self r today name bal ty)) other =
    get_account self other.
Proof.
  unfold get_account, create_account. intros Hold.
  cbn [fst snd accounts BankAccount_init account_number].
  fold (number_of_draw r).
  split; [reflexivity|]. split; [apply lookup_insert_eq|]. split.
  - apply map_size_insert_Some. now exists old.
  - intros other Hne. now apply lookup_insert_ne.
Qed.


(** ** Instances *)

Example alice_number : account_number alice = "1b9d6bcd"%string.
Proof. reflexivity. Qed.

Example alice_details :
  get_details alice =
    Returns
      ("Account: 1b9d6bcd" +:+ PyStr.nl +:+ "Holder: Alice" +:+ PyStr.nl +:+
       "Type: Savings" +:+ PyStr.nl +:+ "Balance: $100.00" +:+ PyStr.nl +:+
       "Created: 2024-03-05")%string.
Proof. vm_compute. reflexivity. Qed.

Example deposit_50 :
  fst (deposit alice (PyNum.PyInt 50) time1)
    = Returns "Deposited $50.00. New balance: $150.00"%string
  /\ balance (snd (deposit alice (PyNum.PyInt 50) time1)) = PyNum.PyInt 150
  /\ fst (deposit alice_float (whole 50) time1)
    = Returns "Deposited $50.00. New balance: $150.00"%string
  /\ balance (snd (deposit alice_float (whole 50) time1)) = whole 150.
Proof. repeat split; vm_compute; reflexivity. Qed.

Example withdraw_200 :
  withdraw alice (PyNum.PyInt 200) time1
    = (Returns "Insufficient funds."%string, alice) /\
  withdraw alice_float (whole 200) time1
    = (Returns "Insufficient funds."%string, alice_float).
Proof. split; vm_compute; reflexivity. Qed.

Lemma withdraw_insufficient_witness :
  PyNum.gt (PyNum.PyInt 200) (balance alice) = true /\
  fst (withdraw alice (PyNum.PyInt 200) time1)
    = Returns "Insufficient funds."%string.
Proof.
  split; [vm_compute; reflexivity|].
  apply (withdraw_insufficient alice (PyNum.PyInt 200) time1).
  vm_compute; reflexivity.
Defined.

Lemma withdraw_sufficient_witness :
  denotes (balance alice_float) 100 = true /\
  denotes (whole 30) 30 = true /\
  denotes (balance (snd (withdraw alice_float (whole 30) time1))) (100 - 30)
    = true.
Proof.
  split; [vm_compute; reflexivity|]. split; [vm_compute; reflexivity|].
  apply (withdraw_sufficient alice_float (whole 30) time1 30 100);
    first [vm_compute; reflexivity | lia].
Defined.

Lemma withdraw_negative_witness :
  -40 < 0 /\
  denotes (balance alice) 100 = true /\
  denotes (PyNum.PyInt (-40)) (-40) = true /\
  denotes (balance (snd (withdraw alice (PyNum.PyInt (-40)) time1)))
    (100 + Z.abs (-40)) = true.
Proof.
  split; [lia|]. split; [vm_compute; reflexivity|].
  split; [vm_compute; reflexivity|].
  apply (withdraw_negative alice (PyNum.PyInt (-40)) time1 (-40) 100);
    first [vm_compute; reflexivity | lia].
Defined.

Lemma deposits_total_witness :
  denotes (balance alice_float) 100 = true /\
  denote_all [whole 50; PyNum.PyInt 25] [50; 25] = true /\
  sums_within 100 [50; 25] = true /\
  denotes
    (balance (snd (calls alice_float
                     (deposits [(whole 50, time1);
                                (PyNum.PyInt 25, time1)]))))
    (100 + total [50; 25]) = true.
Proof.
  split; [vm_compute; reflexivity|]. split; [vm_compute; reflexivity|].
  split; [vm_compute; reflexivity|].
  apply (deposits_total alice_float
           [(whole 50, time1); (PyNum.PyInt 25, time1)] 100 [50; 25]);
    vm_compute; reflexivity.
Defined.

Lemma transactions_append_only_witness :
  forallb returned
    (fst (calls alice_float
            [CallDeposit (whole 50) time1; CallWithdraw (whole 500) time1;
             CallWithdraw (whole 20) time1])) = true /\
  length (transactions
            (snd (calls alice_float
                    [CallDeposit (whole 50) time1;
                     CallWithdraw (whole 500) time1;
                     CallWithdraw (whole 20) time1])))
    = (0 + 2)%nat.
Proof.
  split; [vm_compute; reflexivity|].
  destruct (transactions_append_only alice_float
              [CallDeposit (whole 50) time1; CallWithdraw (whole 500) time1;
               CallWithdraw (whole 20) time1]) as (_ & _ & Hret & _).
  destruct Hret as [_ Hlen]; [vm_compute; reflexivity|].
  rewrite Hlen. vm_compute. reflexivity.
Defined.

Lemma balance_nonneg_witness :
  is_double (whole 100) = true /\
  nonneg (whole 100) = true /\
  calls_admitted
    [CallDeposit (whole 50) time1; CallWithdraw (PyNum.PyInt 500) time1;
     CallWithdraw (whole (-7)) time1; CallWithdraw (PyNum.PyInt 157) time1]
    = true /\
  nonneg (balance (snd (calls alice_float
         [CallDeposit (whole 50) time1; CallWithdraw (PyNum.PyInt 500) time1;
          CallWithdraw (whole (-7)) time1;
          CallWithdraw (PyNum.PyInt 157) time1]))) = true.
Proof.
  split; [vm_compute; reflexivity|]. split; [vm_compute; reflexivity|].
  split; [vm_compute; reflexivity|].
  apply (balance_nonneg draw1 day1 "Alice" (whole 100) "Savings"
           [CallDeposit (whole 50) time1; CallWithdraw (PyNum.PyInt 500) time1;
            CallWithdraw (whole (-7)) time1;
            CallWithdraw (PyNum.PyInt 157) time1]);
    vm_compute; reflexivity.
Defined.

Lemma get_and_delete_witness :
  ("deadbeef"%string ∉ dom (accounts bank)) /\
  (get_account bank "deadbeef" = None) /\
  (get_account bank "1b9d6bcd" = Some alice) /\
  (fst (delete_account bank "1b9d6bcd") = Some alice) /\
  (get_account (snd (delete_account bank "1b9d6bcd")) "1b9d6bcd" = None).
Proof.
  assert (Hout : "deadbeef"%string ∉ dom (accounts bank))
    by (apply not_elem_of_dom; reflexivity).
  destruct (get_and_delete bank "deadbeef") as [Habsent _].
  destruct (get_and_delete bank "1b9d6bcd") as (_ & Hpresent & Hgone).
  split; [exact Hout|]. split; [apply Habsent, Hout|].
  split; [reflexivity|]. split; [|exact Hgone].
  apply (Hpresent alice). reflexivity.
Defined.

Lemma sample_numbers_distinct :
  NoDup (map number_of_draw
           (draws [CallCreate draw1 day1 "Alice" (PyNum.PyInt 100) "Savings";
                   CallDelete "1b9d6bcd";
                   CallCreate draw3 day1 "Bob" (PyNum.PyInt 20) "Checking"])).
Proof.
  vm_compute. apply NoDup_cons. split; [|apply NoDup_singleton].
  intros H. apply list_elem_of_singleton in H. discriminate.
Qed.

Lemma account_numbers_distinct_witness :
  NoDup (map number_of_draw
           (draws [CallCreate draw1 day1 "Alice" (PyNum.PyInt 100) "Savings";
                   CallDelete "1b9d6bcd";
                   CallCreate draw3 day1 "Bob" (PyNum.PyInt 20) "Checking"])) /\
  NoDup (fst (ledger_calls BankingSystem_init
                [CallCreate draw1 day1 "Alice" (PyNum.PyInt 100) "Savings";
                 CallDelete "1b9d6bcd";
                 CallCreate draw3 day1 "Bob" (PyNum.PyInt 20) "Checking"])).
Proof.
  split; [exact sample_numbers_distinct|].
  apply account_numbers_distinct. exact sample_numbers_distinct.
Defined.

Lemma create_account_replaces_witness :
  get_account bank (number_of_draw draw2) = Some alice /\
  get_account
    (snd (create_account bank draw2 day1 "Bob" (PyNum.PyInt 20) "Checking"))
    "1b9d6bcd"
    = Some (BankAccount_init draw2 day1 "Bob" (PyNum.PyInt 20) "Checking").
Proof.
  split; [reflexivity|].
  apply (create_account_replaces bank draw2 day1 "Bob" (PyNum.PyInt 20)
           "Checking" alice).
  reflexivity.
Defined.

(** * Further properties *)

(** ** The history text *)

Lemma str_app_assoc (a b c : string) : (a +:+ b) +:+ c = a +:+ b +:+ c.
Proof.
  induction a as [|x a IH]; [reflexivity|].
  change (String x ((a +:+ b) +:+ c) = String x (a +:+ b +:+ c)).
  now rewrite IH.
Qed.

Lemma string_of_uint_head (u : Decimal.uint) :
  exists c s, NilZero.string_of_uint u = String c s /\
              is_decimal_digit c = true.
Proof. destruct u; cbn; eauto. Qed.

Lemma zfill_head (w : nat) (s0 : string) (c0 : ascii) :
  is_decimal_digit c0 = true ->
  exists c s, PyStr.zfill w (String c0 s0) = String c s /\
              is_decimal_digit c = true.
Proof.
  intros Hc. unfold PyStr.zfill.
  destruct (w - String.length (String c0 s0))%nat as [|k]; cbn [repeat].
  - cbn. eauto.
  - destruct (repeat "0"%string k); cbn; eauto.
Qed.

(** The text of a date starts with a digit. *)
Lemma Date_str_head (d : Date) :
  exists c s, Date_str d = String c s /\ is_decimal_digit c = true.
Proof.
  unfold Date_str.
  destruct (string_of_uint_head (Nat.to_uint (year d))) as (c0 & s0 & -> & H0).
  destruct (zfill_head 4 s0 c0 H0) as (c & s & -> & Hc).
  cbn. eauto.
Qed.

Lemma history_line_head (t : Transaction) (line : string) :
  history_line t = Returns line ->
  exists c s, line = String c s /\ is_decimal_digit c = true.
Proof.
  destruct t as [[kind amount] time]. unfold history_line, DateTime_str.
  destruct (PyNum.format_2f amount) as [a|e]; cbn [bind]; [|discriminate].
  intros [= <-].
  destruct (Date_str_head (on_date time)) as (c & s & -> & Hc).
  cbn. eauto.
Qed.

Lemma concat_head (sep x : string) (l : list string) (c : ascii) (s : string) :
  x = String c s ->
  exists s', String.concat sep (x :: l) = String c s'.
Proof. intros ->. destruct l; cbn; eauto. Qed.

Lemma concat_snoc (sep x y : string) (l : list string) :
  String.concat sep ((x :: l) ++ [y]) =
    String.concat sep (x :: l) +:+ sep +:+ y.
Proof.
  revert x. induction l as [|z l IH]; intros x; [reflexivity|].
  change (String.concat sep ((x :: z :: l) ++ [y]))
    with (x +:+ sep +:+ String.concat sep ((z :: l) ++ [y])).
  change (String.concat sep (x :: z :: l))
    with (x +:+ sep +:+ String.concat sep (z :: l)).
  now rewrite IH, !str_app_assoc.
Qed.

Lemma comprehension_snoc {A B : Type} (f : A -> Result B) (ts : list A)
    (t : A) :
  comprehension f (ts ++ [t]) =
    let* xs := comprehension f ts in
    let* x := f t in
    Returns (xs ++ [x]).
Proof.
  induction ts as [|t0 ts IH]; cbn [app comprehension].
  - cbn [bind]. destruct (f t); reflexivity.
  - destruct (f t0) as [x0|e]; cbn [bind]; [|reflexivity].
    rewrite IH. destruct (comprehension f ts) as [xs|e]; cbn [bind];
      [|reflexivity].
    destruct (f t); reflexivity.
Qed.

Lemma comprehension_cons {A B : Type} (f : A -> Result B) (t : A)
    (ts : list A) (xs : list B) :
  comprehension f (t :: ts) = Returns xs ->
  exists x xs', xs = x :: xs' /\ f t = Returns x.
Proof.
  cbn [comprehension]. destruct (f t) as [x|e]; cbn [bind]; [|discriminate].
  destruct (comprehension f ts) as [xs'|e]; cbn [bind]; [|discriminate].
  intros [= <-]. eauto.
Qed.

Lemma history_snoc (self after : BankAccount) (t : Transaction) :
  transactions after = transactions self ++ [t] ->
  transaction_history after = extended_history self t.
Proof.
  intros Hts. unfold extended_history.
  destruct (transactions self) as [|t0 ts] eqn:E.
  - unfold transaction_history. rewrite Hts.
    cbn [app comprehension]. destruct (history_line t); reflexivity.
  - assert (Hold : transaction_history self =
      let* lines := comprehension history_line (t0 :: ts) in
      Returns (String.concat PyStr.nl lines))
      by (unfold transaction_history; now rewrite E).
    rewrite Hold. unfold transaction_history. rewrite Hts.
    cbn [app]. change (t0 :: ts ++ [t]) with ((t0 :: ts) ++ [t]).
    rewrite comprehension_snoc.
    destruct (comprehension history_line (t0 :: ts)) as [xs|e] eqn:Ex;
      cbn [bind]; [|reflexivity].
    destruct (comprehension_cons _ _ _ _ Ex) as (x & xs' & -> & _).
    destruct (history_line t) as [line|e]; cbn [bind]; [|reflexivity].
    now rewrite concat_snoc.
Qed.

(** X1. The history text is the message "No transactions yet." exactly for
    an account whose list of transactions is empty: with at least one
    record the text starts with the digit of a timestamp. *)
Theorem history_empty_iff (self : BankAccount) :
  transaction_history self = Returns "No transactions yet."%string <->
  transactions self = [].
Proof.
  unfold transaction_history. split.
  - destruct (transactions self) as [|t ts]; [reflexivity|].
    intros H. exfalso.
    destruct (comprehension history_line (t :: ts)) as [xs|e] eqn:Ex;
      cbn [bind] in H; [|discriminate].
    destruct (comprehension_cons _ _ _ _ Ex) as (x & xs' & -> & Hx).
    destruct (history_line_head t x Hx) as (c & s & Hline & Hc).
    destruct (concat_head PyStr.nl x xs' c s Hline) as (s' & Hs').
    rewrite Hs' in H. injection H as Hc' _. subst c. discriminate Hc.
  - intros ->. reflexivity.
Qed.

(** X2. What a call does to the history text: a successful deposit or
    withdrawal adds one line for its record at the end, after a newline
    when there were lines before; a refused withdrawal leaves the text as
    it was; and a call that raises has done the one or the other. *)
Theorem history_after_call (self : BankAccount) (c : AccountCall) :
  (succeeded (fst (call self c)) = true ->
   transaction_history (snd (call self c)) =
     match transactions self with
     | [] => history_line (record_of c)
     | _ :: _ =>
         let* old := transaction_history self in
         let* line := history_line (record_of c) in
         Returns (old +:+ PyStr.nl +:+ line)
     end) /\
  (fst (call self c) = Returns "Insufficient funds."%string ->
   transaction_history (snd (call self c)) = transaction_history self) /\
  (transaction_history (snd (call self c)) = transaction_history self \/
   transaction_history (snd (call self c)) =
     extended_history self (record_of c)).
Proof.
  assert (Hsame : transactions (snd (call self c)) = transactions self ->
    transaction_history (snd (call self c)) = transaction_history self).
  { intros H. unfold transaction_history. now rewrite H. }
  destruct (call_effect self c) as [[Hkeep Hno]|[Hgrow Hyes]].
  - split; [intros H; congruence|]. split; [auto | left; auto].
  - pose proof (history_snoc self _ _ Hgrow) as Hext.
    split; [intros _; exact Hext|]. split; [|right; exact Hext].
    intros Hres. rewrite Hres in Hyes. discriminate (Hyes eq_refl).
Qed.

(** ** What deposits and withdrawals keep *)

Lemma call_fields (self : BankAccount) (c : AccountCall) :
  account_number (snd (call self c)) = account_number self /\
  account_holder_name (snd (call self c)) = account_holder_name self /\
  account_type (snd (call self c)) = account_type self /\
  creation_date (snd (call self c)) = creation_date self.
Proof.
  destruct c as [amount now|amount now]; cbn [call].
  - unfold deposit. destruct (PyNum.add _ _); repeat split.
  - unfold withdraw. destruct (PyNum.gt _ _); [repeat split|].
    destruct (PyNum.sub _ _); repeat split.
Qed.

(** X3. No sequence of deposits and withdrawals changes the number, the
    holder name, the type or the creation date of an account. *)
Theorem identity_fields_fixed (self : BankAccount) (cs : list AccountCall) :
  account_number (snd (calls self cs)) = account_number self /\
  account_holder_name (snd (calls self cs)) = account_holder_name self /\
  account_type (snd (calls self cs)) = account_type self /\
  creation_date (snd (calls self cs)) = creation_date self.
Proof.
  revert self. induction cs as [|c cs IH]; intros self; [repeat split|].
  rewrite calls_cons. cbn [snd].
  destruct (IH (snd (call self c))) as (H1 & H2 & H3 & H4).
  destruct (call_fields self c) as (K1 & K2 & K3 & K4).
  rewrite H1, H2, H3, H4. auto.
Qed.

Lemma recorded_total_app (ts1 ts2 : list Transaction) :
  recorded_total (ts1 ++ ts2) = recorded_total ts1 + recorded_total ts2.
Proof.
  unfold recorded_total, total. rewrite map_app.
  induction (map (fun t : Transaction => int_value (snd (fst t))) ts1)
    as [|x l IH]; cbn [app fold_right]; lia.
Qed.

Lemma int_call (self : BankAccount) (c : AccountCall) (b : Z) :
  balance self = PyNum.PyInt b -> int_calls [c] = true ->
  exists b', balance (snd (call self c)) = PyNum.PyInt b' /\
    b' - recorded_total (transactions (snd (call self c)))
    = b - recorded_total (transactions self).
Proof.
  intros Hb Hc.
  destruct c as [[a|g] now|[a|g] now]; try discriminate; cbn [call].
  - unfold deposit. rewrite Hb. cbn [PyNum.add snd balance transactions].
    eexists. split; [reflexivity|]. rewrite recorded_total_app. cbn. lia.
  - unfold withdraw. rewrite Hb.
    destruct (PyNum.gt _ _).
    + exists b. now split.
    + cbn [PyNum.sub snd balance transactions].
      eexists. split; [reflexivity|]. rewrite recorded_total_app. cbn. lia.
Qed.

(** X4. With int amounts on an int balance the balance and the history
    move together, also when a call raises: over every sequence of such
    deposits and withdrawals the balance stays an int and changes by
    exactly the sum of the signed amounts of the records appended, so for
    an account that started with an empty history the balance is the
    initial balance plus the sum of the signed amounts in its history. *)
Theorem balance_follows_history (self : BankAccount) (cs : list AccountCall)
    (b : Z) :
  balance self = PyNum.PyInt b ->
  int_calls cs = true ->
  exists b',
    balance (snd (calls self cs)) = PyNum.PyInt b' /\
    b' - recorded_total (transactions (snd (calls self cs)))
      = b - recorded_total (transactions self) /\
    (transactions self = [] ->
     b' = b + recorded_total (transactions (snd (calls self cs)))).
Proof.
  intros Hb Hcs.
  assert (Hkeep : exists b',
    balance (snd (calls self cs)) = PyNum.PyInt b' /\
    b' - recorded_total (transactions (snd (calls self cs)))
      = b - recorded_total (transactions self)).
  { revert self b Hb Hcs. induction cs as [|c cs IH]; intros self b Hb Hcs.
    - exists b. now split.
    - cbn [int_calls forallb] in Hcs. apply andb_true_iff in Hcs as [Hc Hcs].
      rewrite calls_cons. cbn [snd].
      destruct (int_call self c b Hb) as (b1 & Hb1 & Hk1).
      { cbn [int_calls forallb]. now rewrite Hc. }
      destruct (IH (snd (call self c)) b1 Hb1 Hcs) as (b2 & Hb2 & Hk2).
      exists b2. split; [exact Hb2 | lia]. }
  destruct Hkeep as (b' & Hb' & Hk). exists b'.
  split; [exact Hb'|]. split; [exact Hk|].
  intros Hempty. rewrite Hempty in Hk. change (recorded_total []) with 0 in Hk.
  lia.
Qed.

Lemma balance_follows_history_witness :
  balance alice = PyNum.PyInt 100 /\
  exists b',
    balance (snd (calls alice
      [CallDeposit (PyNum.PyInt (10 ^ 400)) time1;
       CallWithdraw (PyNum.PyInt 30) time1])) = PyNum.PyInt b' /\
    b' = 100 + recorded_total (transactions (snd (calls alice
      [CallDeposit (PyNum.PyInt (10 ^ 400)) time1;
       CallWithdraw (PyNum.PyInt 30) time1]))).
Proof.
  split; [reflexivity|].
  destruct (balance_follows_history alice
              [CallDeposit (PyNum.PyInt (10 ^ 400)) time1;
               CallWithdraw (PyNum.PyInt 30) time1] 100)
    as (b' & Hb' & _ & Hfresh); [reflexivity | reflexivity |].
  exists b'. split; [exact Hb' | now apply Hfresh].
Defined.

(** X5. With a balance and an amount that are integers of magnitude at
    most 2^53 (as ints or as floats), and a sum within that magnitude:
    withdrawing the amount right after depositing it succeeds exactly
    when the balance before was not negative; then the old balance is
    back, and the history has the two records added. *)
Theorem deposit_then_withdraw (self : BankAccount) (amount : PyNum.Num)
    (t1 t2 : DateTime) (a b : Z) :
  denotes (balance self) b = true ->
  denotes amount a = true ->
  within a = true -> within b = true -> within (b + a) = true ->
  succeeded (fst (withdraw (snd (deposit self amount t1)) amount t2))
    = (0 <=? b) /\
  (0 <= b ->
   denotes (balance (snd (withdraw (snd (deposit self amount t1)) amount t2)))
     b = true /\
   transactions (snd (withdraw (snd (deposit self amount t1)) amount t2))
     = transactions self ++
         [("Deposit"%string, amount, t1);
          ("Withdraw"%string, PyNum.neg amount, t2)]).
Proof.
  intros Hb Ha Hwa Hwb Hws. apply within_spec in Hwa, Hwb, Hws.
  destruct (deposit_exact self amount t1 a b Hb Ha Hwa Hwb Hws)
    as (m1 & _ & _ & _ & Hbal & Hts).
  destruct (Z.leb_spec 0 b) as [Hpos|Hneg].
  - assert (Hwd : Z.abs (b + a - a) <= 2 ^ 53)
      by (replace (b + a - a) with b by lia; exact Hwb).
    destruct (withdraw_exact (snd (deposit self amount t1)) amount t2 a (b + a)
                Hbal Ha Hwa Hws Hwd ltac:(lia))
      as (m2 & Hm2 & Hstart & _ & Hbal2 & Hts2).
    split.
    + rewrite Hm2. apply startswith_spec in Hstart as [rest ->]. reflexivity.
    + intros _. split.
      * now replace (b + a - a) with b in Hbal2 by lia.
      * rewrite Hts2, Hts, <- app_assoc. reflexivity.
  - split; [|lia]. unfold withdraw at 1.
    rewrite (gt_exact amount _ a (b + a) Ha Hbal).
    destruct (Z.ltb_spec (b + a) a); [reflexivity | lia].
Qed.

Lemma deposit_then_withdraw_witness :
  denotes (balance alice_float) 100 = true /\
  denotes (PyNum.PyInt 25) 25 = true /\
  denotes
    (balance (snd (withdraw (snd (deposit alice_float (PyNum.PyInt 25) time1))
                     (PyNum.PyInt 25) time1))) 100 = true.
Proof.
  split; [vm_compute; reflexivity|]. split; [vm_compute; reflexivity|].
  apply (deposit_then_withdraw alice_float (PyNum.PyInt 25) time1 time1 25 100);
    first [vm_compute; reflexivity | lia].
Defined.

(** ** The form of an account number *)

Lemma nibble_cases (d : Z) :
  let a := Z.land d 15 in
  a = 0 \/ a = 1 \/ a = 2 \/ a = 3 \/ a = 4 \/ a = 5 \/ a = 6 \/ a = 7 \/
  a = 8 \/ a = 9 \/ a = 10 \/ a = 11 \/ a = 12 \/ a = 13 \/ a = 14 \/ a = 15.
Proof.
  cbv zeta.
  assert (Z.land d 15 = d mod 16) as -> by apply (Z.land_ones d 4 ltac:(lia)).
  pose proof (Z.mod_pos_bound d 16 ltac:(lia)). lia.
Qed.

Lemma hex_value_digit (d : Z) :
  hex_value (PyStr.hex_digit d) = Z.land d 15.
Proof.
  unfold PyStr.hex_digit.
  pose proof (nibble_cases d) as H. cbv zeta in H.
  repeat destruct H as [H|H]; rewrite H; reflexivity.
Qed.

Lemma hex_digit_is_hex (d : Z) : is_hex_digit (PyStr.hex_digit d) = true.
Proof.
  unfold PyStr.hex_digit.
  pose proof (nibble_cases d) as H. cbv zeta in H.
  repeat destruct H as [H|H]; rewrite H; reflexivity.
Qed.

Lemma hex_fixed_length (w : nat) (z : Z) :
  String.length (PyStr.hex_fixed w z) = w.
Proof.
  induction w as [|w IH]; [reflexivity|].
  simpl. now rewrite IH.
Qed.

Lemma hex_fixed_all_hex (w : nat) (z : Z) :
  all_chars is_hex_digit (PyStr.hex_fixed w z) = true.
Proof.
  induction w as [|w IH]; [reflexivity|].
  cbn [PyStr.hex_fixed all_chars]. now rewrite hex_digit_is_hex, IH.
Qed.

Lemma slice_to_app (n : nat) (a b : string) :
  (n <= String.length a)%nat ->
  PyStr.slice_to n (a +:+ b) = PyStr.slice_to n a.
Proof.
  revert a. induction n as [|n IH]; intros a Hn; [reflexivity|].
  destruct a as [|c a]; cbn in Hn; [lia|].
  simpl. rewrite IH by lia. reflexivity.
Qed.

Lemma slice_to_length (n : nat) (a : string) :
  (n <= String.length a)%nat -> String.length (PyStr.slice_to n a) = n.
Proof.
  revert a. induction n as [|n IH]; intros a Hn; [reflexivity|].
  destruct a as [|c a]; cbn in Hn; [lia|].
  simpl. rewrite IH by lia. reflexivity.
Qed.

Lemma slice_to_idem (n : nat) (a : string) :
  PyStr.slice_to n (PyStr.slice_to n a) = PyStr.slice_to n a.
Proof.
  revert a. induction n as [|n IH]; intros a; [reflexivity|].
  destruct a as [|c a]; [reflexivity|].
  simpl. now rewrite IH.
Qed.

(** The first [k] of [k + m] hexadecimal digits are the digits of the
    number without its [4 * m] low bits. *)
Lemma slice_to_hex_fixed (k m : nat) (z : Z) :
  PyStr.slice_to k (PyStr.hex_fixed (k + m) z) =
  PyStr.hex_fixed k (Z.shiftr z (4 * Z.of_nat m)).
Proof.
  induction k as [|k IH]; [reflexivity|].
  cbn [Nat.add PyStr.hex_fixed PyStr.slice_to]. rewrite IH.
  rewrite Z.shiftr_shiftr by lia. do 3 f_equal. lia.
Qed.

Lemma small_bits_above (a k n : Z) :
  0 <= a -> Z.log2 a < n - k -> Z.testbit (Z.shiftl a k) n = false.
Proof.
  intros Ha Hn. destruct (Z.ltb_spec n 0) as [Hneg|Hpos].
  - now apply Z.testbit_neg_r.
  - rewrite Z.shiftl_spec by lia. now apply Z.bits_above_log2.
Qed.

(** [uuid4] sets the version and the variant below bit 80 only. *)
Lemma uuid4_high_bits (r n : Z) :
  80 <= n ->
  Z.testbit (Uuid.uuid4 r) n = Z.testbit (Z.land r (Z.ones 128)) n.
Proof.
  intros Hn. unfold Uuid.uuid4.
  rewrite Z.lor_spec, Z.land_spec, Z.lor_spec, Z.land_spec.
  rewrite !Z.lnot_spec by lia.
  rewrite (small_bits_above 4 76 n) by (cbn; lia).
  rewrite (small_bits_above 0xf000 64 n) by (cbn; lia).
  rewrite (small_bits_above 0x8000 48 n) by (cbn; lia).
  rewrite (small_bits_above 0xc000 48 n) by (cbn; lia).
  cbn [negb]. now rewrite !andb_true_r, !orb_false_r.
Qed.

Lemma uuid4_leading32 (r : Z) : Z.shiftr (Uuid.uuid4 r) 96 = leading32 r.
Proof.
  unfold leading32. apply Z.bits_inj'. intros n Hn.
  rewrite !Z.shiftr_spec by lia. apply uuid4_high_bits. lia.
Qed.

(** An account number is the 32 leading bits of the draw, as eight
    hexadecimal digits. *)
Lemma number_of_draw_hex (r : Z) :
  number_of_draw r = PyStr.hex_fixed 8 (leading32 r).
Proof.
  unfold number_of_draw, Uuid.str. cbv zeta.
  rewrite slice_to_app
    by (rewrite slice_to_length; [lia | rewrite hex_fixed_length; lia]).
  rewrite slice_to_idem.
  change 32%nat with (8 + 24)%nat. rewrite slice_to_hex_fixed.
  change (4 * Z.of_nat 24) with 96. now rewrite uuid4_leading32.
Qed.

Lemma leading32_high_bits (r n : Z) :
  32 <= n -> Z.testbit (leading32 r) n = false.
Proof.
  intros Hn. unfold leading32.
  rewrite Z.shiftr_spec, Z.land_spec by lia.
  rewrite (Z.ones_spec_high 128 (n + 96)) by lia. apply andb_false_r.
Qed.

(** Equal renderings in [w] hexadecimal digits mean equal low [4 * w]
    bits. *)
Lemma hex_fixed_bits (w : nat) (a b : Z) :
  PyStr.hex_fixed w a = PyStr.hex_fixed w b ->
  forall n, 0 <= n < 4 * Z.of_nat w -> Z.testbit a n = Z.testbit b n.
Proof.
  induction w as [|w IH]; intros H n Hn; [lia|].
  cbn [PyStr.hex_fixed] in H. injection H as Hd Ht.
  destruct (Z.ltb_spec n (4 * Z.of_nat w)) as [Hlow|Hhigh].
  - apply IH; [exact Ht | lia].
  - apply (f_equal hex_value) in Hd. rewrite !hex_value_digit in Hd.
    apply (f_equal (fun z => Z.testbit z (n - 4 * Z.of_nat w))) in Hd.
    rewrite !Z.land_spec, !Z.shiftr_spec in Hd by lia.
    change 15 with (Z.ones 4) in Hd.
    rewrite (Z.ones_spec_low 4 (n - 4 * Z.of_nat w)) in Hd by lia.
    rewrite !andb_true_r in Hd.
    now replace (n - 4 * Z.of_nat w + 4 * Z.of_nat w) with n in Hd by lia.
Qed.

(** X6. The number of every new account is eight characters long, each
    one a lowercase hexadecimal digit. *)
Theorem account_number_form (r : Z) (today : Date) (name : string)
    (initial : PyNum.Num) (ty : string) :
  String.length (account_number (BankAccount_init r today name initial ty)) = 8%nat /\
  all_chars is_hex_digit
    (account_number (BankAccount_init r today name initial ty)) = true.
Proof.
  change (account_number (BankAccount_init r today name initial ty))
    with (number_of_draw r).
  rewrite number_of_draw_hex. split.
  - apply hex_fixed_length.
  - apply hex_fixed_all_hex.
Qed.

(** X7. Two new accounts get the same number exactly when the random
    integers drawn for them agree on their 32 leading bits (of 128); the
    other 96 bits, the names, the balances and the dates play no part. *)
Theorem same_number_iff (r1 r2 : Z) (d1 d2 : Date) (n1 n2 : string)
    (b1 b2 : PyNum.Num) (ty1 ty2 : string) :
  account_number (BankAccount_init r1 d1 n1 b1 ty1) =
  account_number (BankAccount_init r2 d2 n2 b2 ty2) <->
  leading32 r1 = leading32 r2.
Proof.
  change (account_number (BankAccount_init r1 d1 n1 b1 ty1))
    with (number_of_draw r1).
  change (account_number (BankAccount_init r2 d2 n2 b2 ty2))
    with (number_of_draw r2).
  rewrite !number_of_draw_hex. split.
  - intros H. apply Z.bits_inj'. intros n Hn.
    destruct (Z.ltb_spec n 32) as [Hlow|Hhigh].
    + apply (hex_fixed_bits 8 _ _ H). lia.
    + now rewrite !leading32_high_bits.
  - now intros ->.
Qed.

(** ** More on the ledger *)

(** X8. When the number generated for a new account is not yet a key of
    the ledger, [create_account] adds one entry and leaves every other
    lookup as it was, and [delete_account] of the returned number gives
    back the new account and the ledger as it was before. *)
Theorem create_fresh (self : BankingSystem) (r : Z) (today : Date)
    (name : string) (bal : PyNum.Num) (ty : string) :
  number_of_draw r ∉ dom (accounts self) ->
  size (accounts (snd (create_account self r today name bal ty))) =
    S (size (accounts self)) /\
  (forall other, other <> fst (create_account self r today name bal ty) ->
     get_account (snd (create_account self r today name bal ty)) other =
     get_account self other) /\
  delete_account (snd (create_account self r today name bal ty))
                 (fst (create_account self r today name bal ty))
    = (Some (BankAccount_init r today name bal ty), self).
Proof.
  intros Hfresh. apply not_elem_of_dom in Hfresh.
  unfold get_account, delete_account, create_account.
  cbn [fst snd accounts BankAccount_init account_number].
  fold (number_of_draw r). split; [|split].
  - now apply map_size_insert_None.
  - intros other Hne. now apply lookup_insert_ne.
  - rewrite lookup_insert_eq, delete_insert_id by exact Hfresh.
    now destruct self.
Qed.

Lemma create_fresh_witness :
  (number_of_draw draw3 ∉ dom (accounts bank)) /\
  size (accounts (snd (create_account bank draw3 day1 "Bob" (PyNum.PyInt 20) "Checking")))
    = 2%nat.
Proof.
  assert (Hfresh : number_of_draw draw3 ∉ dom (accounts bank))
    by (apply not_elem_of_dom; reflexivity).
  split; [exact Hfresh|].
  apply (create_fresh bank draw3 day1 "Bob" (PyNum.PyInt 20) "Checking" Hfresh).
Defined.

Lemma ledger_calls_keys (self : BankingSystem) (cs : list LedgerCall) :
  keys_consistent self -> keys_consistent (snd (ledger_calls self cs)).
Proof.
  revert self. induction cs as [|c cs IH]; intros self Hself; [exact Hself|].
  destruct c as [r today name bal ty|acc_number]; cbn [ledger_calls].
  - unfold create_account.
    specialize (IH {| accounts :=
      <[account_number (BankAccount_init r today name bal ty) :=
          BankAccount_init r today name bal ty]> (accounts self) |}).
    destruct (ledger_calls _ cs) as [ids self']. cbn [snd] in *.
    apply IH. unfold keys_consistent. cbn [accounts].
    now apply map_Forall_insert_2.
  - apply IH. unfold delete_account.
    destruct (accounts self !! acc_number); [|exact Hself].
    unfold keys_consistent. cbn [snd accounts].
    now apply map_Forall_delete.
Qed.

Lemma ledger_calls_size (self : BankingSystem) (cs : list LedgerCall) :
  (size (accounts (snd (ledger_calls self cs)))
   <= size (accounts self) + creations cs)%nat.
Proof.
  revert self. induction cs as [|c cs IH]; intros self.
  - cbn. lia.
  - destruct c as [r today name bal ty|acc_number];
      cbn [ledger_calls]; unfold creations in *; cbn [draws length].
    + unfold create_account.
      specialize (IH {| accounts :=
        <[account_number (BankAccount_init r today name bal ty) :=
            BankAccount_init r today name bal ty]> (accounts self) |}).
      destruct (ledger_calls _ cs) as [ids self']. cbn [snd accounts] in *.
      pose proof (map_size_insert
        (account_number (BankAccount_init r today name bal ty))
        (BankAccount_init r today name bal ty) (accounts self)) as Hsz.
      destruct (accounts self !! _) in Hsz; unfold id in Hsz; lia.
    + specialize (IH (snd (delete_account self acc_number))).
      unfold delete_account in *.
      destruct (accounts self !! acc_number) as [acc|] eqn:E;
        cbn [snd accounts] in *; [|exact IH].
      pose proof (map_size_delete_Some acc_number (accounts self)
                    ltac:(now exists acc)). lia.
Qed.

(** X9. After every sequence of [create_account] and [delete_account]
    calls on a new ledger, each account found under a number carries that
    number, and the ledger holds at most as many accounts as were
    created. *)
Theorem ledger_keys (cs : list LedgerCall) :
  (forall k acc,
     get_account (snd (ledger_calls BankingSystem_init cs)) k = Some acc ->
     account_number acc = k) /\
  (size (accounts (snd (ledger_calls BankingSystem_init cs)))
   <= creations cs)%nat.
Proof.
  split.
  - intros k acc Hk.
    assert (H0 : keys_consistent BankingSystem_init)
      by apply map_Forall_empty.
    exact (ledger_calls_keys BankingSystem_init cs H0 k acc Hk).
  - pose proof (ledger_calls_size BankingSystem_init cs) as H.
    cbn [BankingSystem_init accounts] in H.
    now rewrite map_size_empty in H.
Qed.

Lemma ledger_keys_witness :
  get_account
    (snd (ledger_calls BankingSystem_init
            [CallCreate draw1 day1 "Alice" (PyNum.PyInt 100) "Savings";
             CallCreate draw3 day1 "Bob" (PyNum.PyInt 20) "Checking";
             CallDelete "1b9d6bcd"])) "6ec0bd7f"
    = Some (BankAccount_init draw3 day1 "Bob" (PyNum.PyInt 20) "Checking") /\
  account_number (BankAccount_init draw3 day1 "Bob" (PyNum.PyInt 20) "Checking")
    = "6ec0bd7f"%string.
Proof.
  split; [reflexivity|].
  apply (ledger_keys [CallCreate draw1 day1 "Alice" (PyNum.PyInt 100) "Savings";
                      CallCreate draw3 day1 "Bob" (PyNum.PyInt 20) "Checking";
                      CallDelete "1b9d6bcd"]).
  reflexivity.
Defined.

(** ** The texts that the window accepts *)

Lemma all_chars_impl (p q : ascii -> bool) (s : string) :
  (forall c, p c = true -> q c = true) ->
  all_chars p s = true -> all_chars q s = true.
Proof.
  intros Hpq. induction s as [|c s IH]; [reflexivity|].
  cbn [all_chars]. intros H. apply andb_true_iff in H as [Hc Hs].
  now rewrite (Hpq c Hc), IH.
Qed.

Lemma decimal_isdigit_char (c : ascii) :
  is_decimal_digit c = true -> isdigit_char c = true.
Proof. unfold is_decimal_digit, isdigit_char. cbv zeta. now intros ->. Qed.

Lemma decimal_isdigit (s : string) :
  s <> ""%string -> all_chars is_decimal_digit s = true -> isdigit s = true.
Proof.
  intros Hne H. destruct s as [|c s]; [congruence|].
  unfold isdigit.
  exact (all_chars_impl is_decimal_digit isdigit_char _
           decimal_isdigit_char H).
Qed.

Lemma float_of_decimal (s : string) :
  s <> ""%string -> all_chars is_decimal_digit s = true ->
  float_of_digits s =
    Returns (PyNum.round_units false (digits_value 0 s * PyNum.scale)).
Proof.
  intros Hne H. destruct s as [|c s]; [congruence|].
  unfold float_of_digits. now rewrite H.
Qed.

(** The digits read extend the number read so far. *)
Lemma digits_value_bounds (s : string) (acc : Z) :
  all_chars is_decimal_digit s = true -> 0 <= acc ->
  0 <= digits_value acc s < (acc + 1) * 10 ^ Z.of_nat (String.length s).
Proof.
  revert acc. induction s as [|c s IH]; intros acc H Hacc.
  - cbn. lia.
  - cbn [all_chars] in H. apply andb_true_iff in H as [Hc Hs].
    unfold is_decimal_digit in Hc. cbv zeta in Hc.
    apply andb_true_iff in Hc as [Hlo Hhi].
    apply Nat.leb_le in Hlo, Hhi.
    cbn [digits_value String.length].
    specialize (IH (10 * acc + (Z.of_nat (nat_of_ascii c) - 48)) Hs
                  ltac:(lia)).
    rewrite Nat2Z.inj_succ, Z.pow_succ_r by lia.
    assert (0 < 10 ^ Z.of_nat (String.length s))
      by (apply Z.pow_pos_nonneg; lia).
    nia.
Qed.

(** What [float] reads from digits is a double that is not negative, and
    from at most fifteen digits it is the number they denote. *)
Lemma float_of_digits_read (s : string) (g : PyNum.Double) :
  float_of_digits s = Returns g ->
  is_double (PyNum.PyFloat g) = true /\
  nonneg (PyNum.PyFloat g) = true /\
  0 <= digits_value 0 s /\
  ((String.length s <= 15)%nat ->
   denotes (PyNum.PyFloat g) (digits_value 0 s) = true /\
   digits_value 0 s <= 2 ^ 53).
Proof.
  intros Hf.
  assert (Hdec : s <> ""%string /\ all_chars is_decimal_digit s = true).
  { unfold float_of_digits in Hf. destruct s as [|c s]; [discriminate|].
    destruct (all_chars is_decimal_digit (String c s)); [|discriminate].
    split; [discriminate | reflexivity]. }
  destruct Hdec as [Hne Hdec].
  rewrite (float_of_decimal s Hne Hdec) in Hf. injection Hf as <-.
  pose proof (digits_value_bounds s 0 Hdec ltac:(lia)) as [Hlo Hhi].
  set (v := digits_value 0 s) in *. clearbody v.
  split; [apply round_units_double|].
  split.
  { apply round_units_nonneg, Z.mul_nonneg_nonneg;
      [exact Hlo | apply Z.lt_le_incl, scale_pos]. }
  split; [exact Hlo|].
  intros Hlen.
  assert (Hsmall : v <= 2 ^ 53).
  { assert (10 ^ Z.of_nat (String.length s) <= 10 ^ 15)
      by (apply Z.pow_le_mono_r; lia).
    assert (10 ^ 15 < 2 ^ 53) by reflexivity. lia. }
  split; [|exact Hsmall].
  destruct (round_units_exact false v ltac:(lia)) as (a & k & -> & Hd).
  exact Hd.
Qed.

Lemma eqb_empty (s : string) : String.eqb s "" = false <-> s <> ""%string.
Proof. destruct s; cbn; split; congruence. Qed.


(** X11. The create handler refuses an empty name and a balance text that
    fails [isdigit]: it shows the "Invalid input!" warning, and the
    window, ledger included, stays as it was. *)
Theorem window_create_refused (self : App.BankingApp) (r : Z) (today : Date) :
  App.name_input self = ""%string \/
  isdigit (App.balance_input self) = false ->
  App.create_account self r today =
    (App.Shows (App.Warning "Input Error" "Invalid input!"), self).
Proof.
  intros H. unfold App.create_account.
  destruct H as [H|H]; rewrite H; [reflexivity|].
  now rewrite orb_true_r.
Qed.

(** X12. The digit test of the handlers lets the superscript digits
    through, which [float] does not read: on a name that is not empty and
    a balance text that passes [isdigit] with a superscript in it, the
    create handler raises [ValueError], shows no box and creates no
    account. *)
Theorem window_create_superscript (self : App.BankingApp) (r : Z)
    (today : Date) :
  App.name_input self <> ""%string ->
  isdigit (App.balance_input self) = true ->
  all_chars is_decimal_digit (App.balance_input self) = false ->
  App.create_account self r today = (App.Uncaught "ValueError", self).
Proof.
  intros Hname Hdig Hsup. unfold App.create_account.
  apply eqb_empty in Hname. rewrite Hname, Hdig. cbn [orb negb].
  unfold float_of_digits.
  destruct (App.balance_input self) as [|c s]; [discriminate Hdig|].
  now rewrite Hsup.
Qed.


Lemma window_create_refused_witness :
  isdigit (App.balance_input (snd (App.handle App.BankingApp_init
     (App.TypeName "Alice")))) = false /\
  snd (App.create_account
         (snd (App.handle App.BankingApp_init (App.TypeName "Alice")))
         draw1 day1)
  = snd (App.handle App.BankingApp_init (App.TypeName "Alice")).
Proof.
  split; [reflexivity|].
  rewrite (window_create_refused
           (snd (App.handle App.BankingApp_init (App.TypeName "Alice")))
           draw1 day1); [reflexivity|].
  right. reflexivity.
Defined.

Lemma window_create_superscript_witness :
  isdigit superscript_text = true /\
  all_chars is_decimal_digit superscript_text = false /\
  fst (App.create_account
         (App.run App.BankingApp_init
            [App.TypeName "Alice"; App.TypeBalance superscript_text])
         draw1 day1)
  = App.Uncaught "ValueError".
Proof.
  split; [reflexivity|]. split; [reflexivity|].
  rewrite (window_create_superscript
             (App.run App.BankingApp_init
                [App.TypeName "Alice"; App.TypeBalance superscript_text])
             draw1 day1);
    [reflexivity | discriminate | reflexivity | reflexivity].
Defined.

(** ** Transactions through the window *)

Lemma bank_eta (b : BankingSystem) : {| accounts := accounts b |} = b.
Proof. now destruct b. Qed.

(** X13. What the transaction handler refuses: an amount text that fails
    [isdigit] gives the "Invalid amount!" warning, whether the account
    exists or not; a text that passes with a number that is not in the
    ledger gives the "Account not found!" warning; and in both cases the
    window, ledger included, stays as it was. *)
Theorem window_transaction_refused (self : App.BankingApp)
    (txn_type : string) (now : DateTime) :
  (isdigit (App.amount_input self) = false ->
   App.process_transaction self txn_type now =
     (App.Shows (App.Warning "Input Error" "Invalid amount!"), self)) /\
  (isdigit (App.amount_input self) = true ->
   App.account_number_txn_input self ∉ dom (accounts (App.bank self)) ->
   App.process_transaction self txn_type now =
     (App.Shows (App.Warning "Not Found" "Account not found!"), self)).
Proof.
  unfold App.process_transaction, get_account. split.
  - now intros ->.
  - intros -> Hout. apply not_elem_of_dom in Hout. now rewrite Hout.
Qed.

Lemma window_transaction_refused_witness :
  (isdigit "-5" = false) /\
  fst (App.process_transaction
         (snd (App.handle window_alice (App.TypeAmount "-5")))
         "Withdraw" time1)
  = App.Shows (App.Warning "Input Error" "Invalid amount!").
Proof.
  split; [reflexivity|].
  destruct (window_transaction_refused
              (snd (App.handle window_alice (App.TypeAmount "-5")))
              "Withdraw" time1) as [Hbad _].
  rewrite Hbad; reflexivity.
Defined.

(** X14. The transaction handler works on one account: it adds and removes
    no account, it leaves every account but the one whose number is in the
    transaction field as it was, and of the widgets it writes the
    transaction display only. *)
Theorem window_transaction_frame (self : App.BankingApp)
    (txn_type : string) (now : DateTime) :
  dom (accounts (App.bank (snd (App.process_transaction self txn_type now))))
    = dom (accounts (App.bank self)) /\
  (forall other, other <> App.account_number_txn_input self ->
     get_account (App.bank (snd (App.process_transaction self txn_type now)))
                 other
     = get_account (App.bank self) other) /\
  App.name_input (snd (App.process_transaction self txn_type now))
    = App.name_input self /\
  App.balance_input (snd (App.process_transaction self txn_type now))
    = App.balance_input self /\
  App.account_type (snd (App.process_transaction self txn_type now))
    = App.account_type self /\
  App.account_number_input (snd (App.process_transaction self txn_type now))
    = App.account_number_input self /\
  App.account_details_display
    (snd (App.process_transaction self txn_type now))
    = App.account_details_display self /\
  App.account_number_txn_input
    (snd (App.process_transaction self txn_type now))
    = App.account_number_txn_input self /\
  App.amount_input (snd (App.process_transaction self txn_type now))
    = App.amount_input self.
Proof.
  unfold App.process_transaction, get_account.
  destruct (isdigit (App.amount_input self)); cbn [negb];
    [|repeat split].
  destruct (accounts (App.bank self) !! App.account_number_txn_input self)
    as [acc|] eqn:E; [|repeat split].
  destruct (float_of_digits (App.amount_input self)) as [a|];
    [|repeat split].
  assert (Hdom :
    forall acc', dom (<[App.account_number_txn_input self := acc']>
                        (accounts (App.bank self)))
                 = dom (accounts (App.bank self))).
  { intros acc'. rewrite dom_insert_L. apply elem_of_dom_2 in E.
    now apply subseteq_union_1_L, singleton_subseteq_l. }
  destruct (if String.eqb txn_type "Deposit"
            then deposit acc (PyNum.PyFloat a) now
            else withdraw acc (PyNum.PyFloat a) now) as [[msg|e] acc'];
    cbn [snd App.bank accounts App.name_input App.balance_input
         App.account_type App.account_number_input
         App.account_details_display App.account_number_txn_input
         App.amount_input];
    (split; [apply Hdom|]; split; [|repeat split]);
    intros other Hne; now apply lookup_insert_ne.
Qed.

(** X15. Withdrawing through the window, on an account that is in the
    ledger with a balance that is an integer of magnitude at most 2^53,
    and an amount text of at most fifteen of the digits 0 to 9: when the
    number typed is above the balance, the display shows "Insufficient
    funds." and the ledger stays as it was; otherwise the account stored
    has the balance lowered by that number, which is not negative, and
    one more record. *)
Theorem window_withdraw (self : App.BankingApp) (now : DateTime)
    (acc : BankAccount) (b : Z) :
  get_account (App.bank self) (App.account_number_txn_input self) = Some acc ->
  denotes (balance acc) b = true ->
  within b = true ->
  App.amount_input self <> ""%string ->
  all_chars is_decimal_digit (App.amount_input self) = true ->
  (String.length (App.amount_input self) <= 15)%nat ->
  let amount := digits_value 0 (App.amount_input self) in
  (amount > b ->
   App.txn_display (snd (App.withdraw self now)) = "Insufficient funds."%string /\
   App.bank (snd (App.withdraw self now)) = App.bank self) /\
  (amount <= b ->
   exists acc' stored,
     get_account (App.bank (snd (App.withdraw self now)))
                 (App.account_number_txn_input self) = Some acc' /\
     denotes (balance acc') (b - amount) = true /\
     0 <= b - amount /\
     transactions acc' =
       transactions acc ++ [("Withdraw"%string, stored, now)] /\
     denotes stored (- amount) = true).
Proof.
  intros Hacc Hb Hwb Hne Hdec Hlen amount.
  unfold App.withdraw, App.process_transaction.
  rewrite (decimal_isdigit _ Hne Hdec), Hacc.
  destruct (float_of_digits (App.amount_input self)) as [g|e] eqn:Eg;
    [|rewrite (float_of_decimal _ Hne Hdec) in Eg; discriminate].
  destruct (float_of_digits_read _ g Eg) as (_ & _ & Hpos & Hexact).
  destruct (Hexact Hlen) as [Hg Hsmall]. fold amount in Hg, Hsmall, Hpos.
  cbn [negb String.eqb Ascii.eqb Bool.eqb andb].
  apply within_spec in Hwb. split.
  - intros Hgt. unfold withdraw.
    rewrite (gt_exact (PyNum.PyFloat g) (balance acc) amount b Hg Hb).
    destruct (Z.ltb_spec b amount); [|lia].
    cbn [snd App.txn_display App.bank]. split; [reflexivity|].
    unfold get_account in Hacc. rewrite (insert_id _ _ _ Hacc).
    apply bank_eta.
  - intros Hle.
    destruct (withdraw_exact acc (PyNum.PyFloat g) now amount b Hb Hg
                ltac:(lia) Hwb ltac:(lia) Hle)
      as (msg & Hmsg & _ & _ & Hbal & Hts).
    destruct (withdraw acc (PyNum.PyFloat g) now) as [res acc'].
    cbn [fst snd] in *. subst res. cbn [snd App.bank accounts].
    exists acc', (PyNum.neg (PyNum.PyFloat g)). split.
    + unfold get_account. cbn [accounts]. apply lookup_insert_eq.
    + split; [exact Hbal|]. split; [lia|]. split; [exact Hts|].
      now apply neg_exact.
Qed.

Lemma window_withdraw_witness :
  get_account (App.bank window_alice)
    (App.account_number_txn_input window_alice) = Some alice_float /\
  denotes (balance alice_float) 100 = true /\
  App.txn_display (snd (App.withdraw window_alice time1))
    = "Insufficient funds."%string /\
  App.bank (snd (App.withdraw window_alice time1)) = App.bank window_alice.
Proof.
  split; [vm_compute; reflexivity|]. split; [vm_compute; reflexivity|].
  apply (window_withdraw window_alice time1 alice_float 100);
    first [vm_compute; reflexivity | discriminate | cbn; lia].
Defined.

(** X16. Depositing through the window, on an account that is in the
    ledger with a balance that is an integer, and an amount text of at
    most fifteen of the digits 0 to 9, where the balance and the sum are
    of magnitude at most 2^53: the account stored has the balance raised
    by the number typed, which is not negative, and one more record, and
    the display shows the confirmation with the digits of the new
    balance. *)
Theorem window_deposit (self : App.BankingApp) (now : DateTime)
    (acc : BankAccount) (b : Z) :
  get_account (App.bank self) (App.account_number_txn_input self) = Some acc ->
  denotes (balance acc) b = true ->
  within b = true ->
  App.amount_input self <> ""%string ->
  all_chars is_decimal_digit (App.amount_input self) = true ->
  (String.length (App.amount_input self) <= 15)%nat ->
  let amount := digits_value 0 (App.amount_input self) in
  within (b + amount) = true ->
  0 <= amount /\
  fst (App.deposit self now) = App.Nothing /\
  (exists acc' stored,
     get_account (App.bank (snd (App.deposit self now)))
                 (App.account_number_txn_input self) = Some acc' /\
     denotes (balance acc') (b + amount) = true /\
     transactions acc' =
       transactions acc ++ [("Deposit"%string, stored, now)] /\
     denotes stored amount = true) /\
  PyStr.contains (PyStr.str_int (b + amount) +:+ ".00")
    (App.txn_display (snd (App.deposit self now))) = true.
Proof.
  intros Hacc Hb Hwb Hne Hdec Hlen amount Hws.
  unfold App.deposit, App.process_transaction.
  rewrite (decimal_isdigit _ Hne Hdec), Hacc.
  destruct (float_of_digits (App.amount_input self)) as [g|e] eqn:Eg;
    [|rewrite (float_of_decimal _ Hne Hdec) in Eg; discriminate].
  destruct (float_of_digits_read _ g Eg) as (_ & _ & Hpos & Hexact).
  destruct (Hexact Hlen) as [Hg Hsmall]. fold amount in Hg, Hsmall, Hpos.
  cbn [negb String.eqb Ascii.eqb Bool.eqb andb].
  apply within_spec in Hwb, Hws.
  destruct (deposit_exact acc (PyNum.PyFloat g) now amount b Hb Hg
              ltac:(lia) Hwb Hws)
    as (msg & Hmsg & _ & Hcontains & Hbal & Hts).
  destruct (deposit acc (PyNum.PyFloat g) now) as [res acc'].
  cbn [fst snd] in *. subst res.
  cbn [fst snd App.bank App.txn_display accounts].
  split; [exact Hpos|]. split; [reflexivity|]. split; [|exact Hcontains].
  exists acc', (PyNum.PyFloat g). split; [apply lookup_insert_eq|].
  split; [exact Hbal|]. split; [exact Hts | exact Hg].
Qed.

Lemma window_deposit_witness :
  get_account (App.bank window_alice)
    (App.account_number_txn_input window_alice) = Some alice_float /\
  denotes (balance alice_float) 100 = true /\
  App.txn_display (snd (App.deposit window_alice time1))
    = "Deposited $250.00. New balance: $350.00"%string /\
  0 <= digits_value 0 (App.amount_input window_alice).
Proof.
  split; [vm_compute; reflexivity|]. split; [vm_compute; reflexivity|].
  split; [vm_compute; reflexivity|].
  apply (window_deposit window_alice time1 alice_float 100);
    first [vm_compute; reflexivity | discriminate | cbn; lia].
Defined.

(** ** What the window keeps *)

Lemma not_below_zero (f : PyNum.Double) :
  PyNum.lt (PyNum.PyFloat f) (PyNum.PyInt 0) = false <->
  f = PyNum.NaN \/ f = PyNum.Inf false \/
  exists s k, f = PyNum.Fin s k /\ 0 <= PyNum.signed s k.
Proof.
  unfold PyNum.lt. destruct f as [|[|]|s k];
    cbn [PyNum.place PyNum.place_ltb]; rewrite ?Z.mul_0_l.
  - split; auto.
  - split; [discriminate|]. intros [H|[H|(s & k & H & _)]]; discriminate.
  - split; auto.
  - rewrite Z.ltb_ge. split.
    + intros H. right. right. now exists s, k.
    + intros [H|[H|(s' & k' & [= <- <-] & H)]]; [discriminate.. | exact H].
Qed.

Lemma nonneg_float (g : PyNum.Double) :
  nonneg (PyNum.PyFloat g) = true ->
  g = PyNum.Inf false \/ exists s k, g = PyNum.Fin s k /\ 0 <= PyNum.signed s k.
Proof.
  destruct g as [|[|]|s k]; try discriminate; [now left|].
  intros H. apply nonneg_fin in H. right. now exists s, k.
Qed.

Lemma negated_not_above (g : PyNum.Double) :
  nonneg (PyNum.PyFloat g) = true ->
  PyNum.le (PyNum.PyFloat (PyNum.fneg g)) (PyNum.PyInt 0) = true.
Proof.
  intros H. destruct (nonneg_float g H) as [->|(s & k & -> & Hk)];
    [reflexivity|].
  unfold PyNum.le. cbn [PyNum.fneg PyNum.place PyNum.place_ltb].
  rewrite Z.mul_0_l, signed_negb, negb_true_iff, Z.ltb_ge. lia.
Qed.

Lemma nonneg_not_below (x : PyNum.Num) :
  nonneg x = true -> PyNum.lt x (PyNum.PyInt 0) = false.
Proof.
  unfold nonneg, PyNum.ge, PyNum.le, PyNum.lt.
  destruct (PyNum.place x) as [[|u|]|]; cbn [PyNum.place PyNum.place_ltb];
    try discriminate; try reflexivity.
  rewrite Z.mul_0_l, negb_true_iff. auto.
Qed.

Lemma deposit_account_ok (k : string) (acc : BankAccount) (g : PyNum.Double)
    (now : DateTime) :
  account_ok k acc -> nonneg (PyNum.PyFloat g) = true ->
  returned (fst (deposit acc (PyNum.PyFloat g) now)) = true /\
  account_ok k (snd (deposit acc (PyNum.PyFloat g) now)).
Proof.
  intros (Hk & [f Hf] & Hb & Hn & Hty & Hts) Hg. unfold account_ok, deposit.
  rewrite Hf in *. cbn [PyNum.add bind PyNum.format_2f fst snd returned
    account_number balance account_holder_name account_type transactions].
  split; [reflexivity|]. split; [exact Hk|]. split; [eauto|].
  split; [|split; [exact Hn|split; [exact Hty|]]].
  - apply not_below_zero in Hb.
    destruct Hb as [->|[->|(s & n & -> & Hpos)]].
    + reflexivity.
    + destruct (nonneg_float g Hg) as [->|(s & n & -> & _)]; reflexivity.
    + destruct (nonneg_float g Hg) as [->|(s' & n' & -> & Hpos')];
        [reflexivity|].
      apply nonneg_not_below, fadd_fin. lia.
  - apply Forall_app. split; [exact Hts|].
    constructor; [|constructor]. left. now split.
Qed.

Lemma withdraw_account_ok (k : string) (acc : BankAccount) (g : PyNum.Double)
    (now : DateTime) :
  account_ok k acc -> nonneg (PyNum.PyFloat g) = true ->
  returned (fst (withdraw acc (PyNum.PyFloat g) now)) = true /\
  account_ok k (snd (withdraw acc (PyNum.PyFloat g) now)).
Proof.
  intros Hok Hg. unfold withdraw.
  destruct (PyNum.gt (PyNum.PyFloat g) (balance acc)) eqn:E;
    [now split|].
  destruct Hok as (Hk & [f Hf] & Hb & Hn & Hty & Hts). unfold account_ok.
  rewrite Hf in *. cbn [PyNum.sub bind PyNum.format_2f fst snd returned
    account_number balance account_holder_name account_type transactions].
  split; [reflexivity|]. split; [exact Hk|]. split; [eauto|].
  split; [|split; [exact Hn|split; [exact Hty|]]].
  - apply not_below_zero in Hb. unfold PyNum.gt, PyNum.lt in E.
    destruct Hb as [->|[->|(s & n & -> & Hpos)]].
    + reflexivity.
    + destruct (nonneg_float g Hg) as [->|(s & n & -> & _)]; reflexivity.
    + destruct (nonneg_float g Hg) as [->|(s' & n' & -> & Hpos')];
        [discriminate E|].
      cbn [PyNum.place PyNum.place_ltb] in E. apply Z.ltb_ge in E.
      unfold PyNum.fsub. cbn [PyNum.fneg].
      apply nonneg_not_below, fadd_fin. rewrite signed_negb. lia.
  - apply Forall_app. split; [exact Hts|].
    constructor; [|constructor]. right. split; [reflexivity|].
    now apply negated_not_above.
Qed.

Lemma transaction_window_ok (self : App.BankingApp) (txn_type : string)
    (now : DateTime) :
  window_ok self -> window_ok (snd (App.process_transaction self txn_type now)).
Proof.
  intros Hok. unfold App.process_transaction, get_account.
  destruct (isdigit (App.amount_input self)); cbn [negb]; [|exact Hok].
  destruct (accounts (App.bank self) !! App.account_number_txn_input self)
    as [acc|] eqn:E; [|exact Hok].
  destruct (float_of_digits (App.amount_input self)) as [g|] eqn:Eg;
    [|exact Hok].
  destruct (float_of_digits_read _ g Eg) as (_ & Hg & _).
  destruct Hok as [Hty Hall].
  pose proof (Hall _ _ E) as Hacc.
  assert (Hnew : account_ok (App.account_number_txn_input self)
            (snd (if String.eqb txn_type "Deposit"
                  then deposit acc (PyNum.PyFloat g) now
                  else withdraw acc (PyNum.PyFloat g) now))).
  { destruct (String.eqb txn_type "Deposit").
    - now apply deposit_account_ok.
    - now apply withdraw_account_ok. }
  destruct (if String.eqb txn_type "Deposit"
            then deposit acc (PyNum.PyFloat g) now
            else withdraw acc (PyNum.PyFloat g) now) as [[msg|e] acc'];
    cbn [snd] in *; (split; [exact Hty|]);
    cbn [App.bank accounts]; now apply map_Forall_insert_2.
Qed.

Lemma handle_window_ok (self : App.BankingApp) (e : App.Event) :
  window_ok self -> window_ok (snd (App.handle self e)).
Proof.
  intros Hok. destruct e as [text|text|checking|text|text|text|r today| |now|now];
    cbn [App.handle]; try exact Hok.
  - split; [|exact (proj2 Hok)]. cbn [snd App.account_type].
    destruct checking; auto.
  - unfold App.create_account.
    destruct (String.eqb (App.name_input self) "") eqn:Ename;
      cbn [orb]; [exact Hok|].
    destruct (isdigit (App.balance_input self)); cbn [negb]; [|exact Hok].
    destruct (float_of_digits (App.balance_input self)) as [g|] eqn:Eg;
      [|exact Hok].
    destruct (float_of_digits_read _ g Eg) as (_ & Hg & _).
    apply eqb_empty in Ename.
    destruct Hok as [Hty Hall]. unfold create_account.
    split; [exact Hty|]. cbn [snd App.bank accounts].
    apply map_Forall_insert_2; [|exact Hall].
    unfold account_ok.
    cbn [BankAccount_init account_number balance account_holder_name
         account_type transactions].
    split; [reflexivity|]. split; [eauto|].
    split; [now apply nonneg_not_below|]. split; [exact Ename|].
    split; [exact Hty | constructor].
  - unfold App.show_account_details.
    destruct (get_account (App.bank self) (App.account_number_input self))
      as [acc|]; [|exact Hok].
    destruct (get_details acc); exact Hok.
  - now apply transaction_window_ok.
  - now apply transaction_window_ok.
Qed.

Lemma run_window_ok (self : App.BankingApp) (es : list App.Event) :
  window_ok self -> window_ok (App.run self es).
Proof.
  revert self. induction es as [|e es IH]; intros self Hok; [exact Hok|].
  cbn [App.run]. now apply IH, handle_window_ok.
Qed.

Lemma init_window_ok : window_ok App.BankingApp_init.
Proof. split; [now left | apply map_Forall_empty]. Qed.

(** X17. Whatever the user types, chooses and clicks in a new window,
    every account then found in the ledger under a number carries that
    number, has a float balance that is never below zero (it can be
    infinity or not-a-number), a holder name that is not empty, the type
    Savings or Checking, and a history in which every Deposit stores an
    amount that is not negative and every Withdraw an amount that is not
    positive. *)
Theorem window_accounts_ok (es : list App.Event) (k : string)
    (acc : BankAccount) :
  get_account (App.bank (App.run App.BankingApp_init es)) k = Some acc ->
  account_number acc = k /\
  (exists f, balance acc = PyNum.PyFloat f) /\
  PyNum.lt (balance acc) (PyNum.PyInt 0) = false /\
  account_holder_name acc <> ""%string /\
  (account_type acc = "Savings"%string \/
   account_type acc = "Checking"%string) /\
  Forall transaction_ok (transactions acc).
Proof.
  intros Hk.
  destruct (run_window_ok App.BankingApp_init es init_window_ok) as [_ Hall].
  exact (Hall k acc Hk).
Qed.

Lemma window_accounts_ok_witness :
  exists acc,
    get_account
      (App.bank (App.run window_alice
                   [App.ClickWithdraw time1; App.TypeAmount "30";
                    App.ClickWithdraw time1; App.TypeAmount "-7";
                    App.ClickDeposit time1]))
      "1b9d6bcd" = Some acc /\
    balance acc = whole 70 /\
    PyNum.lt (balance acc) (PyNum.PyInt 0) = false.
Proof.
  eexists. split; [vm_compute; reflexivity|]. split; [vm_compute; reflexivity|].
  apply (window_accounts_ok
           [App.TypeName "Alice"; App.TypeBalance "100";
            App.ClickCreate draw1 day1;
            App.TypeTxnAccountNumber "1b9d6bcd"; App.TypeAmount "250";
            App.ClickWithdraw time1; App.TypeAmount "30";
            App.ClickWithdraw time1; App.TypeAmount "-7";
            App.ClickDeposit time1] "1b9d6bcd").
  vm_compute. reflexivity.
Defined.

(** X18. The details handler in a window that only its user has worked
    on: when the number in the field is in the ledger, the display gets
    the details of that account, in which the number typed occurs, and
    no box is shown; when it is not, the "Account not found!" warning is
    shown and the display keeps its text.  The ledger stays as it was in
    both cases. *)
Theorem window_details (es : list App.Event) :
  let self := App.run App.BankingApp_init es in
  App.bank (snd (App.show_account_details self)) = App.bank self /\
  match get_account (App.bank self) (App.account_number_input self) with
  | Some acc =>
      exists details,
        get_details acc = Returns details /\
        fst (App.show_account_details self) = App.Nothing /\
        App.account_details_display (snd (App.show_account_details self))
          = details /\
        PyStr.contains (App.account_number_input self) details = true
  | None =>
      App.show_account_details self =
        (App.Shows (App.Warning "Not Found" "Account not found!"), self)
  end.
Proof.
  intros self.
  destruct (run_window_ok App.BankingApp_init es init_window_ok) as [_ Hall].
  fold self in Hall. unfold App.show_account_details.
  destruct (get_account (App.bank self) (App.account_number_input self))
    as [acc|] eqn:E; [|split; reflexivity].
  destruct (Hall _ _ E) as (Hk & [f Hf] & _).
  unfold get_details. rewrite Hf. cbn [PyNum.format_2f bind fst snd App.bank
    App.account_details_display].
  split; [reflexivity|]. eexists. split; [reflexivity|].
  split; [reflexivity|]. split; [reflexivity|].
  rewrite <- Hk at 1. find_piece.
Qed.
